(** * test-resources.py: the resource verification script of the
    Turkey Water Risk Atlas

    A shallow embedding of [src/test-resources.py] and the properties of its
    specification.  The script runs six checks over a directory tree and an
    optional local web server, prints a report and returns an exit code.

    - The file system is a finite map from path to node ([gmap string node]).
    - Values read by [json.load] are the inductive type [json]; Python's [None]
      is [JNull], so a Python variable holding "a JSON value or None" is a
      [json].
    - Python's floats are Rocq's primitive binary64 floats.
    - A check prints and may raise: it is a computation in the monad [M],
      an output (list of printed lines) paired with a value or an exception.
    - The Python standard library's [json.loads] and [int(str)] are an
      interface ([PyLib]); the theorems hold for every implementation of it,
      and [ref_pylib] is an executable one for concrete runs. *)

From Stdlib Require Import ZArith Ascii String List Bool Lia Floats Uint63.
From stdpp Require Import gmap strings list fin_maps sorting.

Local Open Scope Z_scope.
Set Warnings "-register-all".

(** ** Python values and exceptions *)

(** What [json.load] returns: None, bool, int, float, str, list, dict.  A dict
    keeps its keys in insertion order; [json.loads] leaves no key twice. *)
Inductive json : Type :=
| JNull
| JBool (b : bool)
| JInt (z : Z)
| JFloat (f : float)
| JStr (s : string)
| JList (l : list json)
| JDict (kvs : list (string * json)).

(** The exception classes the script can meet.  Every handler in the script is
    [except Exception] or a bare [except], so the class only shows in what is
    printed. *)
Inductive exn : Type :=
| TypeError
| ValueError
| AttributeError
| KeyError
| IndexError
| OverflowError
| ZeroDivisionError
| OSError          (* FileNotFoundError, IsADirectoryError *)
| JSONDecodeError
| RequestException (* connection refused, timeout *).

Inductive res (A : Type) : Type :=
| Ok (a : A)
| Raise (e : exn).
Arguments Ok {A} a.
Arguments Raise {A} e.

Definition res_bind {A B} (r : res A) (k : A -> res B) : res B :=
  match r with
  | Ok a => k a
  | Raise e => Raise e
  end.

Definition of_option {A} (o : option A) (e : exn) : res A :=
  match o with
  | Some a => Ok a
  | None => Raise e
  end.

(** The two functions of the Python standard library whose full behaviour
    (floating-point literals, Unicode digits) is outside this development.
    [None] stands for the exception the function raises. *)
Class PyLib : Type := {
  json_loads : string -> option json;   (* json.loads on text *)
  int_str : string -> option Z          (* int(s) for a str s *)
}.

(** [d.get(k)] and [k in d] on a dict. *)
Fixpoint dict_get (kvs : list (string * json)) (k : string) : option json :=
  match kvs with
  | [] => None
  | (k', v) :: rest => if String.eqb k' k then Some v else dict_get rest k
  end.

Definition dict_has (kvs : list (string * json)) (k : string) : bool :=
  match dict_get kvs k with
  | Some _ => true
  | None => false
  end.

(** [d.get(k)]: None when the key is absent. *)
Definition get (kvs : list (string * json)) (k : string) : json :=
  default JNull (dict_get kvs k).

(** [d.get(k, dflt)]. *)
Definition get_default (kvs : list (string * json)) (k : string) (dflt : json) : json :=
  default dflt (dict_get kvs k).

(** [v == s] for a str literal [s]: only a str equals a str. *)
Definition eq_str (v : json) (s : string) : bool :=
  match v with
  | JStr s' => String.eqb s' s
  | _ => false
  end.

(** [int(f)] for a float: truncation toward zero; OverflowError on an
    infinity, ValueError on a NaN. *)
Definition int_float (f : float) : res Z :=
  match Prim2SF f with
  | S754_zero _ => Ok 0
  | S754_infinity _ => Raise OverflowError
  | S754_nan => Raise ValueError
  | S754_finite s m e =>
      let mag := if 0 <=? e then Z.pos m * 2 ^ e else Z.pos m / 2 ^ (- e) in
      Ok (if s then - mag else mag)
  end.

(** [int(v)]. *)
Definition py_int `{PyLib} (v : json) : res Z :=
  match v with
  | JNull => Raise TypeError
  | JBool b => Ok (if b then 1 else 0)
  | JInt z => Ok z
  | JFloat f => int_float f
  | JStr s => of_option (int_str s) ValueError
  | JList _ => Raise TypeError
  | JDict _ => Raise TypeError
  end.

(** [json.loads(v)]: TypeError unless [v] is a str. *)
Definition loads `{PyLib} (v : json) : res json :=
  match v with
  | JStr s => of_option (json_loads s) JSONDecodeError
  | _ => Raise TypeError
  end.

(** [len(v)]. *)
Definition py_len (v : json) : res nat :=
  match v with
  | JStr s => Ok (String.length s)
  | JList l => Ok (length l)
  | JDict kvs => Ok (length kvs)
  | _ => Raise TypeError
  end.

(** Truth value of [v], as [if v:] and [v and ...] test it. *)
Definition truthy (v : json) : bool :=
  match v with
  | JNull => false
  | JBool b => b
  | JInt z => negb (z =? 0)
  | JFloat f => negb (PrimFloat.eqb f 0%float)
  | JStr s => negb (String.eqb s "")
  | JList l => negb (Nat.eqb (length l) 0)
  | JDict kvs => negb (Nat.eqb (length kvs) 0)
  end.

(** [v[0]]. *)
Definition item0 (v : json) : res json :=
  match v with
  | JStr (String c _) => Ok (JStr (String c EmptyString))
  | JStr EmptyString => Raise IndexError
  | JList (x :: _) => Ok x
  | JList [] => Raise IndexError
  | JDict _ => Raise KeyError         (* keys are str, never 0 *)
  | _ => Raise TypeError
  end.

(** [v.get(k)]: only a dict has the method. *)
Definition attr_get (v : json) (k : string) : res json :=
  match v with
  | JDict kvs => Ok (get kvs k)
  | _ => Raise AttributeError
  end.

(** ** Text helpers *)

(** [os.path.basename]: what follows the last slash. *)
Fixpoint basename_from (acc s : string) : string :=
  match s with
  | EmptyString => acc
  | String c rest =>
      if Ascii.eqb c "/"%char then basename_from rest rest
      else basename_from acc rest
  end.

Definition basename (p : string) : string := basename_from p p.

(** [s.endswith(suf)]. *)
Definition ends_with (suf s : string) : bool :=
  let n := String.length s in
  let k := String.length suf in
  (k <=? n)%nat && String.eqb (String.substring (n - k) k s) suf.

(** [sub in s] for two strs. *)
Definition contains (sub s : string) : bool :=
  match String.index 0 sub s with
  | Some _ => true
  | None => false
  end.

(** [Path(p).parts] for a relative path without a leading slash. *)
Fixpoint parts_from (cur : string) (s : string) : list string :=
  match s with
  | EmptyString => [cur]
  | String c rest =>
      if Ascii.eqb c "/"%char then cur :: parts_from EmptyString rest
      else parts_from (cur +:+ String c EmptyString) rest
  end.

Definition parts (p : string) : list string := parts_from EmptyString p.

(** [l.index(x)] on a list of strs: the first position, None for ValueError. *)
Fixpoint index_of (x : string) (l : list string) : option nat :=
  match l with
  | [] => None
  | y :: rest => if String.eqb y x then Some 0%nat else S <$> index_of x rest
  end.

(** ** The world a run sees *)

(** A path names a regular file with its bytes, or a directory. *)
Inductive node : Type :=
| File (content : string)
| Dir (st_size : N).

Inductive reply : Type :=
| Response (status_code : Z)
| Unreachable.

Record World : Type := {
  fs : gmap string node;          (* paths relative to the working directory *)
  HAS_REQUESTS : bool;            (* did [import requests] succeed *)
  http_get : string -> reply      (* requests.get(url, timeout=5) *)
}.

(** [os.path.exists], [Path.exists]. *)
Definition path_exists (w : World) (p : string) : bool :=
  match fs w !! p with
  | Some _ => true
  | None => false
  end.

(** The world after [os.remove(p)]: nothing but [p] changes. *)
Definition remove (p : string) (w : World) : World :=
  {| fs := delete p (fs w); HAS_REQUESTS := HAS_REQUESTS w;
     http_get := http_get w |}.

(** [os.path.getsize]. *)
Definition getsize (n : node) : N :=
  match n with
  | File c => N.of_nat (String.length c)
  | Dir sz => sz
  end.

(** [with open(p, 'r') as f: json.load(f)]. *)
Definition load_file `{PyLib} (w : World) (p : string) : res json :=
  match fs w !! p with
  | Some (File c) => of_option (json_loads c) JSONDecodeError
  | Some (Dir _) => Raise OSError
  | None => Raise OSError
  end.

(** [Path(dir).rglob('*.pbf')]: every path below [dir] whose last component
    ends in [.pbf]. *)
Definition rglob_pbf (w : World) (dir : string) : list string :=
  List.filter
    (fun p => String.prefix (dir +:+ "/") p && ends_with ".pbf" (basename p))
    (fst <$> map_to_list (fs w)).

(** ** Printed lines *)

(** The text of a sub-check of the metadata check; [got] is the value the
    f-string interpolates. *)
Inductive desc : Type :=
| HasNameField
| FormatIsPbf
| MinZoomIs4 (got : json)
| MaxZoomIs10 (got : json)
| HasVectorLayers
| CorrectLayerId (got : json).

(** One constructor for each [print] of the script, with the values its
    f-string interpolates. *)
Inductive line : Type :=
| LocalHeader
| MissingFiles
| MissingFile (file : string)
| AllFilesExist
| MetadataHeader
| SubCheckOk (d : desc)
| SubCheckFail (d : desc)
| MetadataError (e : exn)
| GeoHeader
| GeoValid (name : string)
| GeoInvalidStructure (name : string)
| GeoError (name : string) (e : exn)
| TilesHeader
| TileOk (path : string) (file_size : N)
| TileMissing (path : string)
| CountHeader
| TilesDirNotFound
| TotalTiles (n : nat)
| ByZoomHeader
| ZoomCount (zoom : string) (n : nat)
| WebSkipped
| WebTesting (base_url : string)
| WebResponding (status_code : Z)
| WebErrorStatus (status_code : Z)
| WebNotAccessible (e : exn)
| WebStartHint
| Banner
| Rule
| BlankLineRule
| TestFailedWithError (test_name : string) (e : exn)
| SummaryHeader
| SummaryPassed (test_name : string)
| SummarySkipped (test_name : string)
| SummaryFailed (test_name : string)
| Overall (passed total : nat) (success_rate : float)
| AllTestsPassed
| MostTestsPassed
| ManyTestsFailed.

(** ** Printing and raising *)

(** A computation: what it printed, and its value or the exception that left
    it. *)
Record M (A : Type) : Type := Run {
  printed : list line;
  outcome : res A
}.
Arguments Run {A} printed outcome.
Arguments printed {A} m.
Arguments outcome {A} m.

Definition print (l : line) : M unit := Run [l] (Ok tt).
Definition raise {A} (e : exn) : M A := Run [] (Raise e).
Definition lift {A} (r : res A) : M A := Run [] r.

#[global] Instance M_ret : MRet M := fun A a => Run [] (Ok a).

#[global] Instance M_bind : MBind M := fun A B k m =>
  match outcome m with
  | Ok a => Run (printed m ++ printed (k a)) (outcome (k a))
  | Raise e => Run (printed m) (Raise e)
  end.

(** [try: m except Exception as e: h e]. *)
Definition try_except {A} (m : M A) (h : exn -> M A) : M A :=
  match outcome m with
  | Ok a => m
  | Raise e => Run (printed m ++ printed (h e)) (outcome (h e))
  end.

(** [for x in l: body x]. *)
Fixpoint for_each {A} (l : list A) (body : A -> M unit) : M unit :=
  match l with
  | [] => mret tt
  | x :: rest => body x;; for_each rest body
  end.

(** [for x in l: s = body x s], the loop variable [s] threaded through. *)
Fixpoint for_fold {A S} (l : list A) (s : S) (body : A -> S -> M S) : M S :=
  match l with
  | [] => mret s
  | x :: rest => s' ← body x s; for_fold rest s' body
  end.

(** What a check returns: True, False or None. *)
Inductive result : Type :=
| RTrue
| RFalse
| RNone.

Definition of_bool (b : bool) : result := if b then RTrue else RFalse.

#[global] Instance res_ret : MRet res := fun A a => Ok a.
#[global] Instance res_mbind : MBind res := fun A B k r => res_bind r k.

(** [k in v] for a str [k]. *)
Definition py_in (k : string) (v : json) : res bool :=
  match v with
  | JDict kvs => Ok (dict_has kvs k)
  | JList l => Ok (existsb (fun x => eq_str x k) l)
  | JStr s => Ok (contains k s)
  | _ => Raise TypeError
  end.

(** [v[k]] for a str [k]. *)
Definition subscript (v : json) (k : string) : res json :=
  match v with
  | JDict kvs => of_option (dict_get kvs k) KeyError
  | _ => Raise TypeError
  end.

(** [v.get(k, dflt)]. *)
Definition attr_get_default (v : json) (k : string) (dflt : json) : res json :=
  match v with
  | JDict kvs => Ok (get_default kvs k dflt)
  | _ => Raise AttributeError
  end.

(** [a / b] on ints: true division.  The counters of this script stay far
    below 2^53, where the conversion to binary64 is exact. *)
Definition truediv (a b : nat) : res float :=
  if Nat.eqb b 0 then Raise ZeroDivisionError
  else Ok (PrimFloat.of_uint63 (Uint63.of_Z (Z.of_nat a))
           / PrimFloat.of_uint63 (Uint63.of_Z (Z.of_nat b)))%float.

(** ** The checks (src/test-resources.py) *)

Section Checks.
Context `{PyLib}.

(** *** test_local_files, lines 19-43 *)

Definition required_files : list string := [
  "docs/index.html";
  "docs/tiles_catchments/metadata.json";
  "docs/data_web/turkey_provinces_web.geojson";
  "docs/data_web/hydrorivers_tr_web_final.geojson";
  "docs/data_web/hydrolakes_tr_web.geojson"
].

Definition test_local_files (w : World) : M result :=
  print LocalHeader;;
  let missing_files :=
    fold_left
      (fun missing_files file_path =>
         if negb (path_exists w file_path) then missing_files ++ [file_path]
         else missing_files)
      required_files [] in
  match missing_files with
  | _ :: _ =>
      print MissingFiles;;
      for_each missing_files (fun file => print (MissingFile file));;
      mret RFalse
  | [] =>
      print AllFilesExist;;
      mret RTrue
  end.

(** *** test_metadata_structure, lines 45-89 *)

Definition metadata_path : string := "docs/tiles_catchments/metadata.json".
Definition layer_id : string := "aqueduct_baseline_annual_tr_web".

(** Lines 54-59. *)
Definition basic_checks (metadata : json) : res (list (bool * desc)) :=
  has_name ← py_in "name" metadata;
  format ← attr_get metadata "format";
  minzoom ← attr_get_default metadata "minzoom" (JInt 0) ≫= py_int;
  got_min ← attr_get metadata "minzoom";
  maxzoom ← attr_get_default metadata "maxzoom" (JInt 0) ≫= py_int;
  got_max ← attr_get metadata "maxzoom";
  mret [ (has_name, HasNameField);
         (eq_str format "pbf", FormatIsPbf);
         (minzoom =? 4, MinZoomIs4 got_min);
         (maxzoom =? 10, MaxZoomIs10 got_max) ].

(** Lines 62-68: the variable [vector_layers] after the inner try. *)
Definition embedded_vector_layers (metadata : json) : res json :=
  has_json ← py_in "json" metadata;
  if has_json : bool then
    match (json_data ← subscript metadata "json" ≫= loads;
           attr_get_default json_data "vector_layers" (JList [])) with
    | Ok vector_layers => Ok vector_layers
    | Raise _ => Ok JNull                       (* except: pass *)
    end
  else Ok JNull.

(** Lines 70-74. *)
Definition layer_checks (vector_layers : json) : res (list (bool * desc)) :=
  has_layers ←
    match vector_layers with
    | JNull => Ok false
    | _ => n ← py_len vector_layers; Ok (0 <? n)%nat
    end;
  id_ok ←
    (if truthy vector_layers then
       first ← item0 vector_layers;
       id ← attr_get first "id";
       Ok (eq_str id layer_id)
     else Ok false);
  got ←
    (if truthy vector_layers then
       first ← item0 vector_layers;
       attr_get first "id"
     else Ok (JStr "None"));
  mret [ (has_layers, HasVectorLayers); (id_ok, CorrectLayerId got) ].

(** Lines 76-83: one line for each sub-check, counting the passed ones. *)
Definition report_checks (all_checks : list (bool * desc)) : M nat :=
  for_fold all_checks 0%nat
    (fun '(check, description) passed =>
       if check : bool then print (SubCheckOk description);; mret (S passed)
       else print (SubCheckFail description);; mret passed).

Definition test_metadata_structure (w : World) : M result :=
  print MetadataHeader;;
  try_except
    (metadata ← lift (load_file w metadata_path);
     basic ← lift (basic_checks metadata);
     vector_layers ← lift (embedded_vector_layers metadata);
     layers ← lift (layer_checks vector_layers);
     let all_checks := basic ++ layers in
     passed ← report_checks all_checks;
     mret (of_bool (Nat.eqb passed (length all_checks))))
    (fun e => print (MetadataError e);; mret RFalse).

(** *** test_geojson_files, lines 91-118 *)

Definition geojson_files : list string := [
  "docs/data_web/turkey_provinces_web.geojson";
  "docs/data_web/hydrorivers_tr_web_final.geojson";
  "docs/data_web/hydrolakes_tr_web.geojson"
].

(** Lines 104-108: load the file and test its structure. *)
Definition geojson_structure (w : World) (file_path : string) : res bool :=
  data ← load_file w file_path;
  has_type ← py_in "type" data;
  if has_type : bool then
    type ← subscript data "type";
    Ok (eq_str type "FeatureCollection" || eq_str type "Feature")
  else Ok false.

Definition test_geojson_files (w : World) : M result :=
  print GeoHeader;;
  all_valid ←
    for_fold geojson_files true
      (fun file_path all_valid =>
         try_except
           (valid ← lift (geojson_structure w file_path);
            if valid : bool then
              print (GeoValid (basename file_path));; mret all_valid
            else
              print (GeoInvalidStructure (basename file_path));; mret false)
           (fun e => print (GeoError (basename file_path) e);; mret false));
  mret (of_bool all_valid).

(** *** test_sample_tiles, lines 120-140 *)

Definition sample_tiles : list string := [
  "docs/tiles_catchments/4/10/6.pbf";
  "docs/tiles_catchments/6/36/23.pbf";
  "docs/tiles_catchments/8/146/95.pbf";
  "docs/tiles_catchments/10/604/401.pbf"
].

Definition test_sample_tiles (w : World) : M result :=
  print TilesHeader;;
  existing_tiles ←
    for_fold sample_tiles 0%nat
      (fun tile_path existing_tiles =>
         match fs w !! tile_path with
         | Some n =>
             print (TileOk tile_path (getsize n));; mret (S existing_tiles)
         | None =>
             print (TileMissing tile_path);; mret existing_tiles
         end);
  mret (of_bool (Nat.eqb existing_tiles (length sample_tiles))).

(** *** count_tiles, lines 142-169 *)

Definition tiles_dir : string := "docs/tiles_catchments".

(** Lines 157-160: the component after [tiles_catchments]; None where the
    script's [except: continue] skips the file. *)
Definition zoom_of (pbf_file : string) : option string :=
  let ps := parts pbf_file in
  zoom_idx ← (fun i => i + 1)%nat <$> index_of "tiles_catchments" ps;
  ps !! zoom_idx.

Definition count_by_zoom (pbf_files : list string) : gmap string nat :=
  fold_left
    (fun zoom_counts pbf_file =>
       match zoom_of pbf_file with
       | Some zoom => <[zoom := (default 0 (zoom_counts !! zoom) + 1)%nat]> zoom_counts
       | None => zoom_counts
       end)
    pbf_files ∅.

Definition count_tiles (w : World) : M result :=
  print CountHeader;;
  if negb (path_exists w tiles_dir) then
    print TilesDirNotFound;;
    mret RFalse
  else
    let pbf_files := rglob_pbf w tiles_dir in
    print (TotalTiles (length pbf_files));;
    let zoom_counts := count_by_zoom pbf_files in
    print ByZoomHeader;;
    for_each (merge_sort String.le (fst <$> map_to_list zoom_counts))
      (fun zoom => print (ZoomCount zoom (default 0%nat (zoom_counts !! zoom))));;
    mret (of_bool (0 <? length pbf_files)%nat).

(** *** test_web_server, lines 171-190 *)

Definition test_web_server (w : World) (base_url : string) : M result :=
  if negb (HAS_REQUESTS w) then
    print WebSkipped;;
    mret RNone
  else
    print (WebTesting base_url);;
    try_except
      (match http_get w base_url with
       | Response status_code =>
           if status_code =? 200 then
             print (WebResponding status_code);; mret RTrue
           else
             print (WebErrorStatus status_code);; mret RFalse
       | Unreachable => raise RequestException
       end)
      (fun e => print (WebNotAccessible e);; print WebStartHint;; mret RNone).

(** *** main, lines 192-242 *)

Definition check : Type := World -> M result.

Definition tests : list (string * check) := [
  ("Local Files", test_local_files);
  ("Metadata Structure", test_metadata_structure);
  ("GeoJSON Files", test_geojson_files);
  ("Sample Tiles", test_sample_tiles);
  ("Tile Count", count_tiles);
  ("Web Server", fun w => test_web_server w "http://localhost:8000")
].

(** Lines 206-213: run the checks in order; a check that raises is recorded
    as False. *)
Definition run_tests (tests : list (string * check)) (w : World)
  : M (list (string * result)) :=
  for_fold tests []
    (fun '(test_name, test_func) results =>
       try_except
         (result ← test_func w;
          mret (results ++ [(test_name, result)]))
         (fun e =>
            print (TestFailedWithError test_name e);;
            mret (results ++ [(test_name, RFalse)]))).

(** Lines 219-229: the counters [passed] and [total]. *)
Definition tally (results : list (string * result)) : M (nat * nat) :=
  for_fold results (0%nat, 0%nat)
    (fun '(test_name, result) '(passed, total) =>
       let total := S total in
       match result with
       | RTrue => print (SummaryPassed test_name);; mret (S passed, total)
       | RNone => print (SummarySkipped test_name);; mret (passed, total)
       | RFalse => print (SummaryFailed test_name);; mret (passed, total)
       end).

(** Lines 215-242. *)
Definition summary (results : list (string * result)) : M Z :=
  print BlankLineRule;;
  print SummaryHeader;;
  '(passed, total) ← tally results;
  success_rate ← lift (q ← truediv passed total; Ok (q * 100)%float);
  print (Overall passed total success_rate);;
  if PrimFloat.eqb success_rate 100 then
    print AllTestsPassed;; mret 0
  else if PrimFloat.leb 80 success_rate then
    print MostTestsPassed;; mret 1
  else
    print ManyTestsFailed;; mret 2.

(** [main] with its list of checks as a parameter. *)
Definition main_with (tests : list (string * check)) (w : World) : M Z :=
  print Banner;;
  print Rule;;
  results ← run_tests tests w;
  summary results.

Definition main (w : World) : M Z := main_with tests w.

End Checks.

(** ** An executable PyLib for concrete runs

    A reader for the fragment of JSON without fractional or exponent numbers,
    [\u] escapes and the constants NaN and Infinity, and [int(str)] on ASCII
    text.  On a text of the fragment [Ref.json_loads] gives what Python's
    [json.loads] gives; outside it gives [None]. *)
Module Ref.

Definition dquote : ascii := ascii_of_nat 34.

Definition is_ws (c : ascii) : bool :=
  let n := nat_of_ascii c in
  (n =? 32)%nat || (n =? 9)%nat || (n =? 10)%nat || (n =? 13)%nat.

Definition is_digit (c : ascii) : bool :=
  let n := nat_of_ascii c in (48 <=? n)%nat && (n <=? 57)%nat.

Definition digit (c : ascii) : Z := Z.of_nat (nat_of_ascii c) - 48.

Fixpoint skip_ws (s : string) : string :=
  match s with
  | String c rest => if is_ws c then skip_ws rest else s
  | EmptyString => s
  end.

Fixpoint read_digits (acc : Z) (s : string) : Z * string :=
  match s with
  | String c rest =>
      if is_digit c then read_digits (10 * acc + digit c) rest else (acc, s)
  | EmptyString => (acc, s)
  end.

(** A number that continues with [.], [e] or [E] is a float: not in the
    fragment. *)
Definition int_end (n : Z) (rest : string) : option (Z * string) :=
  match rest with
  | String c _ =>
      if Ascii.eqb c "."%char || Ascii.eqb c "e"%char || Ascii.eqb c "E"%char
      then None else Some (n, rest)
  | EmptyString => Some (n, rest)
  end.

(** An optional minus sign, then 0 or a nonzero digit and more digits. *)
Definition read_int (s : string) : option (Z * string) :=
  let '(neg, s1) :=
    match s with
    | String c rest => if Ascii.eqb c "-"%char then (true, rest) else (false, s)
    | EmptyString => (false, s)
    end in
  match s1 with
  | String c rest =>
      if Ascii.eqb c "0"%char then int_end 0 rest
      else if is_digit c then
        let '(n, rest') := read_digits 0 s1 in
        int_end (if neg : bool then - n else n) rest'
      else None
  | EmptyString => None
  end.

Definition unescape (c : ascii) : option ascii :=
  if Ascii.eqb c dquote then Some dquote
  else if Ascii.eqb c "\"%char then Some "\"%char
  else if Ascii.eqb c "/"%char then Some "/"%char
  else if Ascii.eqb c "b"%char then Some (ascii_of_nat 8)
  else if Ascii.eqb c "f"%char then Some (ascii_of_nat 12)
  else if Ascii.eqb c "n"%char then Some (ascii_of_nat 10)
  else if Ascii.eqb c "r"%char then Some (ascii_of_nat 13)
  else if Ascii.eqb c "t"%char then Some (ascii_of_nat 9)
  else None.

(** The rest of a string literal, after its opening quote. *)
Fixpoint read_string (acc : string) (s : string) : option (string * string) :=
  match s with
  | EmptyString => None
  | String c rest =>
      if Ascii.eqb c dquote then Some (acc, rest)
      else if Ascii.eqb c "\"%char then
        match rest with
        | String e rest' =>
            match unescape e with
            | Some ch => read_string (acc +:+ String ch EmptyString) rest'
            | None => None
            end
        | EmptyString => None
        end
      else if (nat_of_ascii c <? 32)%nat then None
      else read_string (acc +:+ String c EmptyString) rest
  end.

Fixpoint drop_prefix (p s : string) : option string :=
  match p, s with
  | EmptyString, _ => Some s
  | String a p', String b s' => if Ascii.eqb a b then drop_prefix p' s' else None
  | String _ _, EmptyString => None
  end.

(** [d[k] = v] on a dict under construction: a repeated key keeps its place
    and takes the last value. *)
Fixpoint dict_set (kvs : list (string * json)) (k : string) (v : json)
  : list (string * json) :=
  match kvs with
  | [] => [(k, v)]
  | (k', v') :: rest =>
      if String.eqb k' k then (k', v) :: rest else (k', v') :: dict_set rest k v
  end.

Fixpoint read_value (fuel : nat) (s : string) : option (json * string) :=
  match fuel with
  | O => None
  | S fuel =>
      match skip_ws s with
      | EmptyString => None
      | String c rest =>
          if Ascii.eqb c "{"%char then
            match skip_ws rest with
            | String c' rest' =>
                if Ascii.eqb c' "}"%char then Some (JDict [], rest')
                else read_members fuel rest []
            | EmptyString => None
            end
          else if Ascii.eqb c "["%char then
            match skip_ws rest with
            | String c' rest' =>
                if Ascii.eqb c' "]"%char then Some (JList [], rest')
                else read_elements fuel rest []
            | EmptyString => None
            end
          else if Ascii.eqb c dquote then
            '(str, rest') ← read_string EmptyString rest;
            Some (JStr str, rest')
          else
            match drop_prefix "true" (String c rest),
                  drop_prefix "false" (String c rest),
                  drop_prefix "null" (String c rest) with
            | Some rest', _, _ => Some (JBool true, rest')
            | _, Some rest', _ => Some (JBool false, rest')
            | _, _, Some rest' => Some (JNull, rest')
            | None, None, None =>
                '(n, rest') ← read_int (String c rest);
                Some (JInt n, rest')
            end
      end
  end
with read_elements (fuel : nat) (s : string) (acc : list json)
  : option (json * string) :=
  match fuel with
  | O => None
  | S fuel =>
      '(v, rest) ← read_value fuel s;
      match skip_ws rest with
      | String c rest' =>
          if Ascii.eqb c ","%char then read_elements fuel rest' (acc ++ [v])
          else if Ascii.eqb c "]"%char then Some (JList (acc ++ [v]), rest')
          else None
      | EmptyString => None
      end
  end
with read_members (fuel : nat) (s : string) (acc : list (string * json))
  : option (json * string) :=
  match fuel with
  | O => None
  | S fuel =>
      match skip_ws s with
      | String q rest =>
          if Ascii.eqb q dquote then
            '(k, rest1) ← read_string EmptyString rest;
            match skip_ws rest1 with
            | String c rest2 =>
                if Ascii.eqb c ":"%char then
                  '(v, rest3) ← read_value fuel rest2;
                  match skip_ws rest3 with
                  | String c' rest4 =>
                      if Ascii.eqb c' ","%char then
                        read_members fuel rest4 (dict_set acc k v)
                      else if Ascii.eqb c' "}"%char then
                        Some (JDict (dict_set acc k v), rest4)
                      else None
                  | EmptyString => None
                  end
                else None
            | EmptyString => None
            end
          else None
      | EmptyString => None
      end
  end.

(** One value, then nothing but whitespace.  Every call of the three readers
    but the first follows a consumed character, so twice the length is fuel
    enough. *)
Definition json_loads (s : string) : option json :=
  '(v, rest) ← read_value (2 * String.length s + 2) s;
  match skip_ws rest with
  | EmptyString => Some v
  | String _ _ => None
  end.

(** [int(s)] on ASCII text: whitespace, a sign, decimal digits with single
    underscores between them, whitespace. *)
Definition is_space (c : ascii) : bool :=
  let n := nat_of_ascii c in
  (n =? 32)%nat || ((9 <=? n)%nat && (n <=? 13)%nat)
  || ((28 <=? n)%nat && (n <=? 31)%nat).

Fixpoint lstrip (s : string) : string :=
  match s with
  | String c rest => if is_space c then lstrip rest else s
  | EmptyString => s
  end.

(** The digits that follow a digit. *)
Fixpoint int_digits (acc : Z) (s : string) : option (Z * string) :=
  match s with
  | EmptyString => Some (acc, s)
  | String c rest =>
      if is_digit c then int_digits (10 * acc + digit c) rest
      else if Ascii.eqb c "_"%char then
        match rest with
        | String c' rest' =>
            if is_digit c' then int_digits (10 * acc + digit c') rest'
            else None
        | EmptyString => None
        end
      else Some (acc, s)
  end.

Definition int_str (s : string) : option Z :=
  let s0 := lstrip s in
  let '(neg, s1) :=
    match s0 with
    | String c rest =>
        if Ascii.eqb c "-"%char then (true, rest)
        else if Ascii.eqb c "+"%char then (false, rest)
        else (false, s0)
    | EmptyString => (false, s0)
    end in
  match s1 with
  | String c rest =>
      if is_digit c then
        '(n, rest') ← int_digits (digit c) rest;
        match lstrip rest' with
        | EmptyString => Some (if neg : bool then - n else n)
        | String _ _ => None
        end
      else None
  | EmptyString => None
  end.

(** JSON texts are written below with apostrophes for the double quotes. *)
Fixpoint dq (s : string) : string :=
  match s with
  | EmptyString => EmptyString
  | String c rest =>
      String (if Ascii.eqb c "'"%char then dquote else c) (dq rest)
  end.

End Ref.

Definition ref_pylib : PyLib :=
  {| json_loads := Ref.json_loads; int_str := Ref.int_str |}.

(** ** Concrete sites *)

Module Site.

Definition geojson_text : string :=
  Ref.dq "{'type':'FeatureCollection','features':[]}".

(** The metadata of the specification's end-to-end scenario. *)
Definition scenario_metadata : string :=
  Ref.dq "{'format':'pbf','minzoom':4,'maxzoom':10,'json':'{\'vector_layers\':[{\'id\':\'aqueduct_baseline_annual_tr_web\'}]}'}".

(** The same with a name. *)
Definition named_metadata : string :=
  Ref.dq "{'name':'catchments','format':'pbf','minzoom':4,'maxzoom':10,'json':'{\'vector_layers\':[{\'id\':\'aqueduct_baseline_annual_tr_web\'}]}'}".

(** Zoom levels as strings, the way tippecanoe writes them. *)
Definition string_zoom_metadata : string :=
  Ref.dq "{'name':'catchments','format':'pbf','minzoom':'4','maxzoom':'10','json':'{\'vector_layers\':[{\'id\':\'aqueduct_baseline_annual_tr_web\'}]}'}".

Definition null_minzoom_metadata : string :=
  Ref.dq "{'name':'catchments','format':'pbf','minzoom':null,'maxzoom':10,'json':'{\'vector_layers\':[{\'id\':\'aqueduct_baseline_annual_tr_web\'}]}'}".

Definition minzoom5_metadata : string :=
  Ref.dq "{'name':'catchments','format':'pbf','minzoom':5,'maxzoom':10,'json':'{\'vector_layers\':[{\'id\':\'aqueduct_baseline_annual_tr_web\'}]}'}".

(** The tree of a deployed site, with [metadata] as the text of
    metadata.json. *)
Definition tree (metadata : string) : gmap string node :=
  list_to_map [
    ("docs", Dir 4096);
    ("docs/index.html", File "<html></html>");
    ("docs/data_web", Dir 4096);
    ("docs/data_web/turkey_provinces_web.geojson", File geojson_text);
    ("docs/data_web/hydrorivers_tr_web_final.geojson", File geojson_text);
    ("docs/data_web/hydrolakes_tr_web.geojson", File geojson_text);
    ("docs/tiles_catchments", Dir 4096);
    ("docs/tiles_catchments/metadata.json", File metadata);
    ("docs/tiles_catchments/4", Dir 4096);
    ("docs/tiles_catchments/4/10", Dir 4096);
    ("docs/tiles_catchments/4/10/6.pbf", File "tile");
    ("docs/tiles_catchments/6", Dir 4096);
    ("docs/tiles_catchments/6/36", Dir 4096);
    ("docs/tiles_catchments/6/36/23.pbf", File "tile");
    ("docs/tiles_catchments/8", Dir 4096);
    ("docs/tiles_catchments/8/146", Dir 4096);
    ("docs/tiles_catchments/8/146/95.pbf", File "tile");
    ("docs/tiles_catchments/10", Dir 4096);
    ("docs/tiles_catchments/10/604", Dir 4096);
    ("docs/tiles_catchments/10/604/401.pbf", File "tile")
  ].

(** A server that answers every request with [status]. *)
Definition served (metadata : string) (status : Z) : World :=
  {| fs := tree metadata; HAS_REQUESTS := true;
     http_get := fun _ => Response status |}.

(** No [requests] library. *)
Definition unserved (metadata : string) : World :=
  {| fs := tree metadata; HAS_REQUESTS := false;
     http_get := fun _ => Unreachable |}.

(** The deployed site with a server that answers 200: every check passes. *)
Definition deployed : World := served named_metadata 200.

(** The deployed site with a truncated rivers file. *)
Definition broken_rivers : World :=
  {| fs := <["docs/data_web/hydrorivers_tr_web_final.geojson" := File "{oops"]>
             (tree named_metadata);
     HAS_REQUESTS := true;
     http_get := fun _ => Response 200 |}.

Definition no_json_metadata : string :=
  Ref.dq "{'name':'catchments','format':'pbf','minzoom':4,'maxzoom':10}".

(** The embedded layer descriptor, as text and as the dict it parses to. *)
Definition descriptor_text : string :=
  Ref.dq "{'vector_layers':[{'id':'aqueduct_baseline_annual_tr_web'}]}".

Definition descriptor : list (string * json) :=
  [ ("vector_layers",
     JList [ JDict [ ("id", JStr "aqueduct_baseline_annual_tr_web") ] ]) ].

(** The documents the metadata texts above parse to. *)
Definition scenario_doc : list (string * json) :=
  [ ("format", JStr "pbf"); ("minzoom", JInt 4); ("maxzoom", JInt 10);
    ("json", JStr descriptor_text) ].

Definition named_doc : list (string * json) :=
  ("name", JStr "catchments") :: scenario_doc.

Definition string_zoom_doc : list (string * json) :=
  [ ("name", JStr "catchments"); ("format", JStr "pbf");
    ("minzoom", JStr "4"); ("maxzoom", JStr "10");
    ("json", JStr descriptor_text) ].

Definition null_minzoom_doc : list (string * json) :=
  [ ("name", JStr "catchments"); ("format", JStr "pbf");
    ("minzoom", JNull); ("maxzoom", JInt 10);
    ("json", JStr descriptor_text) ].

Definition minzoom5_doc : list (string * json) :=
  [ ("name", JStr "catchments"); ("format", JStr "pbf");
    ("minzoom", JInt 5); ("maxzoom", JInt 10);
    ("json", JStr descriptor_text) ].

Definition no_json_doc : list (string * json) :=
  [ ("name", JStr "catchments"); ("format", JStr "pbf");
    ("minzoom", JInt 4); ("maxzoom", JInt 10) ].

(** A check that raises, for the orchestrator's loop. *)
Definition broken_check : check := fun _ => print LocalHeader;; raise ValueError.

End Site.

(** More sites, for the further properties. *)
Module Edge.

(** metadata.json holds an array. *)
Definition array_metadata : World := Site.served "[1, 2]" 200.

(** metadata.json has no minzoom key. *)
Definition no_minzoom_metadata : string :=
  Ref.dq "{'name':'catchments','format':'pbf','maxzoom':10,'json':'{\'vector_layers\':[{\'id\':\'aqueduct_baseline_annual_tr_web\'}]}'}".

Definition no_minzoom_doc : list (string * json) :=
  [ ("name", JStr "catchments"); ("format", JStr "pbf");
    ("maxzoom", JInt 10); ("json", JStr Site.descriptor_text) ].

(** The deployed site with a directory where the rivers file should be. *)
Definition rivers_is_a_directory : World :=
  {| fs := <["docs/data_web/hydrorivers_tr_web_final.geojson" := Dir 4096]>
             (Site.tree Site.named_metadata);
     HAS_REQUESTS := true;
     http_get := fun _ => Response 200 |}.

(** metadata.json has no json key and a null minzoom. *)
Definition no_json_null_minzoom_metadata : string :=
  Ref.dq "{'name':'catchments','format':'pbf','minzoom':null,'maxzoom':10}".

Definition no_json_null_minzoom_doc : list (string * json) :=
  [ ("name", JStr "catchments"); ("format", JStr "pbf");
    ("minzoom", JNull); ("maxzoom", JInt 10) ].

End Edge.


(** ** Reading a run *)

(** What the orchestrator records for a check that ran as [m]: its result, or
    False when it raised. *)
Definition recorded (m : M result) : result :=
  match outcome m with
  | Ok r => r
  | Raise _ => RFalse
  end.

(** What the orchestrator's loop prints for a check [test_name] that ran as
    [m]: the check's own lines, and the error line when it raised. *)
Definition trace (test_name : string) (m : M result) : list line :=
  printed m ++
  match outcome m with
  | Ok _ => []
  | Raise e => [TestFailedWithError test_name e]
  end.

(** The number of recorded results that are True. *)
Definition count_passed (results : list (string * result)) : nat :=
  length (List.filter (fun r => match r.2 with RTrue => true | _ => false end) results).

(** The exit code by the exact pass rate [passed / total]: 0 at 100%, 1 from
    80% up, 2 below. *)
Definition exit_code_of_rate (passed total : nat) : Z :=
  if (100 * passed =? 100 * total)%nat then 0
  else if (80 * total <=? 100 * passed)%nat then 1
  else 2.

(** The exit code as [summary] computes it, in binary64. *)
Definition float_exit_code (success_rate : float) : Z :=
  if PrimFloat.eqb success_rate 100 then 0
  else if PrimFloat.leb 80 success_rate then 1
  else 2.

(** The line the metadata check prints for a sub-check. *)
Definition line_of (c : bool * desc) : line :=
  if c.1 then SubCheckOk c.2 else SubCheckFail c.2.

Section Readings.
Context `{PyLib}.

(** The line the GeoJSON check prints for one file. *)
Definition geo_line (w : World) (file_path : string) : line :=
  match geojson_structure w file_path with
  | Ok true => GeoValid (basename file_path)
  | Ok false => GeoInvalidStructure (basename file_path)
  | Raise e => GeoError (basename file_path) e
  end.

(** A file of the GeoJSON check is valid. *)
Definition geo_valid (w : World) (file_path : string) : bool :=
  match geojson_structure w file_path with
  | Ok true => true
  | _ => false
  end.

(** The sub-checks of the metadata check, lines 49-76: the list [all_checks],
    or the exception that sends the check to its handler. *)
Definition all_checks (w : World) : res (list (bool * desc)) :=
  metadata ← load_file w metadata_path;
  basic ← basic_checks metadata;
  vector_layers ← embedded_vector_layers metadata;
  layers ← layer_checks vector_layers;
  Ok (basic ++ layers).

(** The zoom levels the check accepts: [int()] of the minzoom value (0 when
    the key is absent) is 4 and of the maxzoom value is 10. *)
Definition zooms_expected (md : list (string * json)) : Prop :=
  py_int (get_default md "minzoom" (JInt 0)) = Ok 4
  /\ py_int (get_default md "maxzoom" (JInt 0)) = Ok 10.

(** The embedded layer descriptor the check accepts: the [json] value is a
    str that parses to a dict whose [vector_layers] is a list, the first
    element of it a dict with the expected [id]. *)
Definition layer_expected (md : list (string * json)) : Prop :=
  exists s jd first rest,
    dict_get md "json" = Some (JStr s)
    /\ json_loads s = Some (JDict jd)
    /\ dict_get jd "vector_layers" = Some (JList (JDict first :: rest))
    /\ dict_get first "id" = Some (JStr layer_id).

(** The metadata document the check accepts. *)
Definition metadata_expected (md : list (string * json)) : Prop :=
  dict_has md "name" = true
  /\ dict_get md "format" = Some (JStr "pbf")
  /\ zooms_expected md
  /\ layer_expected md.

(** The embedded descriptor gives the layer checks nothing to look at: the
    [json] key is absent, or its value does not parse, or it parses to a dict
    whose [vector_layers] is missing or the empty list. *)
Definition no_vector_layers (md : list (string * json)) : Prop :=
  dict_get md "json" = None
  \/ (exists v e, dict_get md "json" = Some v /\ loads v = Raise e)
  \/ (exists v jd,
        dict_get md "json" = Some v /\ loads v = Ok (JDict jd)
        /\ (dict_get jd "vector_layers" = None
            \/ dict_get jd "vector_layers" = Some (JList []))).

(** The metadata file of [w] holds the JSON object [md]. *)
Definition metadata_is (w : World) (md : list (string * json)) : Prop :=
  exists c, fs w !! metadata_path = Some (File c)
            /\ json_loads c = Some (JDict md).

End Readings.

(** The required files that are missing, in the order of the list. *)
Definition missing_files (w : World) : list string :=
  List.filter (fun p => negb (path_exists w p)) required_files.

(** The line the sample-tile check prints for one tile. *)
Definition tile_line (w : World) (tile_path : string) : line :=
  match fs w !! tile_path with
  | Some n => TileOk tile_path (getsize n)
  | None => TileMissing tile_path
  end.

(** The line of the summary for one recorded result. *)
Definition summary_line (r : string * result) : line :=
  match r.2 with
  | RTrue => SummaryPassed r.1
  | RNone => SummarySkipped r.1
  | RFalse => SummaryFailed r.1
  end.

(** A path component: not empty, not the dot, no slash in it. *)
Fixpoint no_slash (s : string) : bool :=
  match s with
  | EmptyString => true
  | String c rest => negb (Ascii.eqb c "/"%char) && no_slash rest
  end.

Definition component (s : string) : Prop :=
  s <> EmptyString /\ s <> "." /\ no_slash s = true.

(** The counts of the per-zoom lines among printed lines. *)
Definition zoom_line_counts (out : list line) : list nat :=
  omap (fun l => match l with ZoomCount _ n => Some n | _ => None end) out.

(** A path is a tile for the count: below the tile directory, its name
    ending in [.pbf]. *)
Definition is_tile (p : string) : bool :=
  String.prefix (tiles_dir +:+ "/") p && ends_with ".pbf" (basename p).

(** The values of [vector_layers] on which the layer checks raise, with the
    exception: [len()] of a number or bool, [.get] on the character of a
    non-empty str or on a first element that is no dict, [[0]] on a non-empty
    dict. *)
Definition layer_checks_raise (vector_layers : json) (e : exn) : Prop :=
  match vector_layers with
  | JNull => False
  | JBool _ | JInt _ | JFloat _ => e = TypeError
  | JStr s => s <> EmptyString /\ e = AttributeError
  | JList [] => False
  | JList (JDict _ :: _) => False
  | JList (_ :: _) => e = AttributeError
  | JDict [] => False
  | JDict (_ :: _) => e = KeyError
  end.

(** ** The monad *)

Section MonadFacts.
Context {A B : Type}.

Lemma bind_Ok (m : M A) (k : A -> M B) (a : A) :
  outcome m = Ok a ->
  m ≫= k = Run (printed m ++ printed (k a)) (outcome (k a)).
Proof. intros Hm. unfold mbind, M_bind. now rewrite Hm. Qed.

Lemma bind_Raise (m : M A) (k : A -> M B) (e : exn) :
  outcome m = Raise e ->
  m ≫= k = Run (printed m) (Raise e).
Proof. intros Hm. unfold mbind, M_bind. now rewrite Hm. Qed.

Lemma bind_print (l : line) (k : unit -> M B) :
  print l ≫= k = Run (l :: printed (k tt)) (outcome (k tt)).
Proof. reflexivity. Qed.

Lemma bind_lift_Ok (a : A) (k : A -> M B) : lift (Ok a) ≫= k = k a.
Proof. unfold mbind, M_bind. simpl. now destruct (k a). Qed.

Lemma bind_lift_Raise (e : exn) (k : A -> M B) :
  lift (Raise e) ≫= k = Run [] (Raise e).
Proof. reflexivity. Qed.

Lemma bind_ret (a : A) (k : A -> M B) : mret a ≫= k = k a.
Proof. unfold mbind, M_bind, mret, M_ret. simpl. now destruct (k a). Qed.

Lemma outcome_bind (m : M A) (k : A -> M B) :
  outcome (m ≫= k) =
  match outcome m with
  | Ok a => outcome (k a)
  | Raise e => Raise e
  end.
Proof. unfold mbind, M_bind. now destruct (outcome m). Qed.

End MonadFacts.

(** ** The orchestrator's loop *)

Section Orchestrator.
Context `{PyLib}.

Lemma run_tests_from (tests : list (string * check)) (w : World)
    (results : list (string * result)) :
  for_fold tests results
    (fun '(test_name, test_func) results =>
       try_except
         (result ← test_func w;
          mret (results ++ [(test_name, result)]))
         (fun e =>
            print (TestFailedWithError test_name e);;
            mret (results ++ [(test_name, RFalse)])))
  = Run (concat (map (fun t => trace t.1 (t.2 w)) tests))
        (Ok (results ++ map (fun t => (t.1, recorded (t.2 w))) tests)).
Proof.
  revert results.
  induction tests as [|[test_name test_func] rest IH]; intros results.
  - simpl. now rewrite app_nil_r.
  - cbn [for_fold map concat fst snd].
    unfold trace at 1, recorded at 1. cbn [fst snd].
    unfold try_except, mbind at 2, M_bind at 2.
    destruct (test_func w) as [out [r|e]]; cbn [outcome printed].
    + unfold mbind, M_bind. cbn [outcome printed mret M_ret].
      rewrite IH. cbn [outcome printed].
      rewrite !app_nil_r, <- app_assoc. reflexivity.
    + unfold mbind, M_bind. cbn [outcome printed mret M_ret print].
      rewrite IH. cbn [outcome printed].
      rewrite !app_nil_r, <- !app_assoc. reflexivity.
Qed.

Lemma run_tests_run (tests : list (string * check)) (w : World) :
  run_tests tests w
  = Run (concat (map (fun t => trace t.1 (t.2 w)) tests))
        (Ok (map (fun t => (t.1, recorded (t.2 w))) tests)).
Proof. unfold run_tests. now rewrite run_tests_from. Qed.

(** The counters of the summary loop. *)
Lemma tally_from (results : list (string * result)) (passed total : nat) :
  outcome
    (for_fold results (passed, total)
       (fun '(test_name, result) '(passed, total) =>
          let total := S total in
          match result with
          | RTrue => print (SummaryPassed test_name);; mret (S passed, total)
          | RNone => print (SummarySkipped test_name);; mret (passed, total)
          | RFalse => print (SummaryFailed test_name);; mret (passed, total)
          end))
  = Ok ((passed + count_passed results)%nat, (total + length results)%nat).
Proof.
  revert passed total.
  induction results as [|[test_name r] rest IH]; intros passed total.
  - simpl. unfold count_passed. simpl. f_equal. f_equal; lia.
  - cbn [for_fold]. rewrite outcome_bind.
    unfold count_passed in *.
    destruct r; cbn [outcome print mbind M_bind mret M_ret printed];
      rewrite IH; cbn [List.filter snd length]; f_equal; f_equal; lia.
Qed.

Lemma tally_outcome (results : list (string * result)) :
  outcome (tally results) = Ok (count_passed results, length results).
Proof. unfold tally. now rewrite tally_from. Qed.

Lemma summary_outcome (results : list (string * result)) :
  outcome (summary results) =
  (q ← truediv (count_passed results) (length results);
   Ok (float_exit_code (q * 100)%float)).
Proof.
  unfold summary.
  rewrite !bind_print. cbn [outcome].
  rewrite outcome_bind, tally_outcome.
  destruct (truediv (count_passed results) (length results)) as [q|e];
    cbn [mbind res_mbind res_bind].
  - rewrite bind_lift_Ok, bind_print. cbn [outcome].
    unfold float_exit_code.
    destruct (PrimFloat.eqb (q * 100) 100); [reflexivity|].
    destruct (PrimFloat.leb 80 (q * 100)); reflexivity.
  - reflexivity.
Qed.

Lemma count_passed_le (results : list (string * result)) :
  (count_passed results <= length results)%nat.
Proof. unfold count_passed. apply filter_length_le. Qed.

(** Binary64 agrees with the exact rate on every count out of six. *)
Lemma six_checks_rate (passed : nat) :
  (passed <= 6)%nat ->
  (q ← truediv passed 6; Ok (float_exit_code (q * 100)%float))
  = Ok (exit_code_of_rate passed 6).
Proof.
  intros Hle.
  do 7 (destruct passed as [|passed]; [vm_compute; reflexivity|]).
  lia.
Qed.

Lemma main_with_outcome (tests : list (string * check)) (w : World) :
  outcome (main_with tests w) =
  outcome (summary (map (fun t => (t.1, recorded (t.2 w))) tests)).
Proof.
  unfold main_with. rewrite !bind_print. cbn [outcome].
  rewrite outcome_bind, run_tests_run. reflexivity.
Qed.

(** The exit code of [main], by the exact rate over its six checks. *)
Lemma main_outcome_rate (w : World) :
  outcome (main w)
  = Ok (exit_code_of_rate
          (count_passed (map (fun t => (t.1, recorded (t.2 w))) tests)) 6).
Proof.
  unfold main. rewrite main_with_outcome, summary_outcome.
  pose proof (count_passed_le (map (fun t => (t.1, recorded (t.2 w))) tests)) as Hle.
  change (length (map (fun t => (t.1, recorded (t.2 w))) tests)) with 6%nat in *.
  now apply six_checks_rate.
Qed.

(** The last line [summary] prints goes with the exit code. *)
Lemma summary_last_line (results : list (string * result)) :
  outcome (summary results) = Ok 0 ->
  In AllTestsPassed (printed (summary results)).
Proof.
  unfold summary. rewrite !bind_print. cbn [outcome printed].
  intros Hout. right. right.
  destruct (tally results) as [out [[passed total]|e]] eqn:Htally.
  - erewrite bind_Ok in * by reflexivity. cbn [printed outcome] in *.
    apply in_or_app. right.
    destruct (truediv passed total) as [q|e]; cbn [mbind res_mbind res_bind] in *.
    + rewrite bind_lift_Ok, bind_print in *. cbn [printed outcome] in *.
      right.
      destruct (PrimFloat.eqb (q * 100) 100); [left; reflexivity|].
      destruct (PrimFloat.leb 80 (q * 100)); discriminate Hout.
    + discriminate Hout.
  - erewrite bind_Raise in Hout by reflexivity. discriminate Hout.
Qed.

Lemma main_last_line (w : World) :
  outcome (main w) = Ok 0 -> In AllTestsPassed (printed (main w)).
Proof.
  unfold main. rewrite main_with_outcome. intros Hout.
  apply summary_last_line in Hout.
  unfold main_with. rewrite !bind_print. cbn [printed].
  right. right. rewrite run_tests_run.
  erewrite bind_Ok by reflexivity. cbn [printed].
  apply in_or_app. now right.
Qed.

End Orchestrator.

(** ** The checks, one by one *)

Section CheckFacts.
Context `{PyLib}.

Lemma for_each_print {A} (l : list A) (f : A -> line) :
  for_each l (fun x => print (f x)) = Run (map f l) (Ok tt).
Proof.
  induction l as [|x l IH]; [reflexivity|].
  cbn [for_each]. rewrite bind_print, IH. reflexivity.
Qed.

Lemma local_files_outcome (w : World) :
  outcome (test_local_files w)
  = Ok (of_bool (forallb (path_exists w) required_files)).
Proof.
  unfold test_local_files, required_files. cbn [fold_left forallb].
  repeat match goal with
         | |- context [path_exists w ?p] => destruct (path_exists w p)
         end; reflexivity.
Qed.

Lemma sample_tiles_outcome (w : World) :
  outcome (test_sample_tiles w)
  = Ok (of_bool (forallb (path_exists w) sample_tiles)).
Proof.
  unfold test_sample_tiles, sample_tiles, path_exists.
  cbn [for_fold forallb].
  repeat match goal with
         | |- context [fs w !! ?p] => destruct (fs w !! p)
         end; reflexivity.
Qed.

Lemma geojson_run (w : World) :
  test_geojson_files w
  = Run (GeoHeader :: map (geo_line w) geojson_files)
        (Ok (of_bool (forallb (geo_valid w) geojson_files))).
Proof.
  unfold test_geojson_files, geojson_files, geo_line, geo_valid.
  cbn [for_fold forallb map].
  repeat match goal with
         | |- context [geojson_structure w ?p] =>
             destruct (geojson_structure w p) as [[|]|?]
         end; reflexivity.
Qed.

Lemma count_tiles_outcome (w : World) :
  outcome (count_tiles w)
  = Ok (of_bool (path_exists w tiles_dir
                 && (0 <? length (rglob_pbf w tiles_dir))%nat)).
Proof.
  unfold count_tiles. rewrite bind_print. cbn [outcome].
  destruct (path_exists w tiles_dir); cbn [negb andb]; [|reflexivity].
  rewrite !bind_print. cbn [outcome].
  rewrite for_each_print.
  reflexivity.
Qed.

Lemma web_server_outcome (w : World) (base_url : string) :
  outcome (test_web_server w base_url)
  = Ok (if negb (HAS_REQUESTS w) then RNone
        else match http_get w base_url with
             | Response status_code => of_bool (status_code =? 200)
             | Unreachable => RNone
             end).
Proof.
  unfold test_web_server.
  destruct (HAS_REQUESTS w); cbn [negb]; [|reflexivity].
  rewrite bind_print. cbn [outcome].
  destruct (http_get w base_url) as [status_code|]; [|reflexivity].
  destruct (status_code =? 200); reflexivity.
Qed.

(** The loop over the sub-checks prints one line each and counts the passed
    ones. *)
Lemma report_checks_from (checks : list (bool * desc)) (passed : nat) :
  for_fold checks passed
    (fun '(check, description) passed =>
       if check : bool then print (SubCheckOk description);; mret (S passed)
       else print (SubCheckFail description);; mret passed)
  = Run (map line_of checks)
        (Ok (passed + length (List.filter fst checks))%nat).
Proof.
  revert passed.
  induction checks as [|[[|] d] rest IH]; intros passed.
  - cbn. now rewrite Nat.add_0_r.
  - cbn [for_fold]. rewrite bind_print.
    erewrite bind_Ok by reflexivity. rewrite IH.
    cbn. now rewrite Nat.add_succ_r.
  - cbn [for_fold]. rewrite bind_print.
    erewrite bind_Ok by reflexivity. rewrite IH.
    reflexivity.
Qed.

Lemma filter_all {A} (f : A -> bool) (l : list A) :
  Nat.eqb (length (List.filter f l)) (length l) = forallb f l.
Proof.
  induction l as [|x l IH]; [reflexivity|].
  cbn [List.filter forallb]. destruct (f x); cbn [andb length].
  - exact IH.
  - apply Nat.eqb_neq. pose proof (filter_length_le f l). lia.
Qed.

Lemma metadata_run (w : World) :
  test_metadata_structure w =
  match all_checks w with
  | Ok checks =>
      Run (MetadataHeader :: map line_of checks)
          (Ok (of_bool (forallb fst checks)))
  | Raise e => Run [MetadataHeader; MetadataError e] (Ok RFalse)
  end.
Proof.
  unfold test_metadata_structure, all_checks.
  rewrite bind_print.
  destruct (load_file w metadata_path) as [metadata|e];
    cbn [mbind res_mbind res_bind]; [|reflexivity].
  rewrite bind_lift_Ok.
  destruct (basic_checks metadata) as [basic|e];
    cbn [mbind res_mbind res_bind]; [|reflexivity].
  rewrite bind_lift_Ok.
  destruct (embedded_vector_layers metadata) as [vector_layers|e];
    cbn [mbind res_mbind res_bind]; [|reflexivity].
  rewrite bind_lift_Ok.
  destruct (layer_checks vector_layers) as [layers|e];
    cbn [mbind res_mbind res_bind]; [|reflexivity].
  rewrite bind_lift_Ok.
  unfold report_checks. rewrite report_checks_from.
  unfold try_except, mbind, M_bind. cbn [outcome printed mret M_ret].
  rewrite app_nil_r. cbn [Nat.add]. rewrite filter_all. reflexivity.
Qed.

End CheckFacts.

(** ** The orchestrator: isolation of failures and the exit code *)

Section MainFacts.
Context `{PyLib}.

(** C6: when a check raises, the orchestrator's loop does not abort: it
    returns a result for every registered check, in the registered order; the
    check that raised is recorded as False and its error line is printed;
    every other check still runs (its lines are printed in order, its own
    result is recorded); and [main] over any non-empty list of checks returns
    an exit code. *)
Theorem run_tests_isolates_failures (tests : list (string * check)) (w : World) :
  outcome (run_tests tests w)
    = Ok (map (fun t => (t.1, recorded (t.2 w))) tests)
  /\ printed (run_tests tests w)
    = concat (map (fun t => trace t.1 (t.2 w)) tests)
  /\ (forall test_name (m : M result) e,
        outcome m = Raise e ->
        recorded m = RFalse
        /\ trace test_name m = printed m ++ [TestFailedWithError test_name e])
  /\ (forall (m : M result) r, outcome m = Ok r -> recorded m = r)
  /\ (tests <> [] -> exists code, outcome (main_with tests w) = Ok code).
Proof.
  rewrite run_tests_run. cbn [outcome printed].
  split; [reflexivity|]. split; [reflexivity|].
  split; [|split].
  - intros test_name m e Hm. unfold recorded, trace. rewrite Hm. auto.
  - intros m r Hm. unfold recorded. now rewrite Hm.
  - intros Hne. rewrite main_with_outcome, summary_outcome.
    unfold truediv. rewrite length_map.
    destruct tests as [|t rest]; [congruence|].
    cbn [length Nat.eqb mbind res_mbind res_bind]. eauto.
Qed.

(** C3: [main] returns an exit code on every run, and it is the one the
    exact pass rate (results that are True out of all six recorded results)
    determines: 0 at 100%, 1 from 80% up to below 100%, 2 below 80%.  No
    other value is returned. *)
Theorem main_exit_code (w : World) :
  let results := map (fun t => (t.1, recorded (t.2 w))) tests in
  outcome (run_tests tests w) = Ok results
  /\ length results = 6%nat
  /\ outcome (main w)
     = Ok (exit_code_of_rate (count_passed results) (length results))
  /\ (outcome (main w) = Ok 0 \/ outcome (main w) = Ok 1
      \/ outcome (main w) = Ok 2).
Proof.
  intros results.
  assert (Hmain : outcome (main w)
                  = Ok (exit_code_of_rate (count_passed results) (length results))).
  { apply main_outcome_rate. }
  split; [now rewrite run_tests_run|].
  split; [reflexivity|].
  split; [exact Hmain|].
  rewrite Hmain. unfold exit_code_of_rate.
  destruct (_ =? _)%nat; [auto|].
  destruct (_ <=? _)%nat; auto.
Qed.

End MainFacts.

(** ** Pass, fail and skip *)

Section Tristate.
Context `{PyLib}.

Lemma path_exists_None (w : World) (p : string) :
  fs w !! p = None -> path_exists w p = false.
Proof. intros Hp. unfold path_exists. now rewrite Hp. Qed.

Lemma forallb_missing {A} (f : A -> bool) (l : list A) (x : A) :
  In x l -> f x = false -> forallb f l = false.
Proof.
  intros Hin Hx. apply not_true_is_false. intros Hall.
  rewrite forallb_forall in Hall. specialize (Hall x Hin). congruence.
Qed.

Lemma load_missing (w : World) (p : string) :
  fs w !! p = None -> load_file w p = Raise OSError.
Proof. intros Hp. unfold load_file. now rewrite Hp. Qed.

Lemma of_bool_cases (b : bool) : of_bool b = RTrue \/ of_bool b = RFalse.
Proof. destruct b; auto. Qed.

Lemma metadata_outcome_cases (w : World) :
  outcome (test_metadata_structure w) = Ok RTrue
  \/ outcome (test_metadata_structure w) = Ok RFalse.
Proof.
  rewrite metadata_run. destruct (all_checks w) as [checks|e]; cbn [outcome].
  - destruct (forallb fst checks); auto.
  - auto.
Qed.

(** C8: every check returns exactly one of True (pass), False (fail) and
    None (skip), and never raises.  The five local checks never return None.
    The web-server check returns None exactly when the requests library is
    missing or the request raises (connection refused, timeout); a server
    that answers with a status other than 200 is a fail.  A missing local
    resource (a required file, the metadata file, a GeoJSON file, a sample
    tile, the tile directory) makes its check fail.  So the only result the
    orchestrator can record as skipped is the web-server one. *)
Theorem checks_are_tristate (w : World) :
  (forall c : check,
      In c [test_local_files; test_metadata_structure; test_geojson_files;
            test_sample_tiles; count_tiles] ->
      outcome (c w) = Ok RTrue \/ outcome (c w) = Ok RFalse)
  /\ (forall base_url,
        outcome (test_web_server w base_url) = Ok RTrue
        \/ outcome (test_web_server w base_url) = Ok RFalse
        \/ outcome (test_web_server w base_url) = Ok RNone)
  /\ (forall base_url,
        outcome (test_web_server w base_url) = Ok RNone
        <-> HAS_REQUESTS w = false \/ http_get w base_url = Unreachable)
  /\ (forall base_url status_code,
        HAS_REQUESTS w = true ->
        http_get w base_url = Response status_code ->
        status_code <> 200 ->
        outcome (test_web_server w base_url) = Ok RFalse)
  /\ (forall p, In p required_files -> fs w !! p = None ->
        outcome (test_local_files w) = Ok RFalse)
  /\ (fs w !! metadata_path = None ->
        outcome (test_metadata_structure w) = Ok RFalse)
  /\ (forall p, In p geojson_files -> fs w !! p = None ->
        outcome (test_geojson_files w) = Ok RFalse)
  /\ (forall p, In p sample_tiles -> fs w !! p = None ->
        outcome (test_sample_tiles w) = Ok RFalse)
  /\ (fs w !! tiles_dir = None -> outcome (count_tiles w) = Ok RFalse)
  /\ (forall test_name,
        In (test_name, RNone) (map (fun t => (t.1, recorded (t.2 w))) tests) ->
        test_name = "Web Server").
Proof.
  assert (Hlocal : forall c : check,
             In c [test_local_files; test_metadata_structure;
                   test_geojson_files; test_sample_tiles; count_tiles] ->
             outcome (c w) = Ok RTrue \/ outcome (c w) = Ok RFalse).
  { intros c Hc. cbn [In] in Hc.
    destruct Hc as [<-|[<-|[<-|[<-|[<-|[]]]]]].
    - rewrite local_files_outcome.
      destruct (of_bool_cases (forallb (path_exists w) required_files)) as [-> | ->]; auto.
    - apply metadata_outcome_cases.
    - rewrite geojson_run. cbn [outcome].
      destruct (of_bool_cases (forallb (geo_valid w) geojson_files)) as [-> | ->]; auto.
    - rewrite sample_tiles_outcome.
      destruct (of_bool_cases (forallb (path_exists w) sample_tiles)) as [-> | ->]; auto.
    - rewrite count_tiles_outcome.
      match goal with |- context [of_bool ?b] =>
        destruct (of_bool_cases b) as [-> | ->] end; auto. }
  split; [exact Hlocal|].
  split; [|split; [|split; [|split; [|split; [|split; [|split; [|split]]]]]]].
  - intros base_url. rewrite web_server_outcome.
    destruct (HAS_REQUESTS w); cbn [negb]; auto.
    destruct (http_get w base_url) as [status_code|]; auto.
    destruct (status_code =? 200); cbn [of_bool]; auto.
  - intros base_url. rewrite web_server_outcome.
    destruct (HAS_REQUESTS w); cbn [negb].
    + destruct (http_get w base_url) as [status_code|].
      * destruct (status_code =? 200); cbn [of_bool];
          split; [discriminate | intros [?|?]; discriminate
                 | discriminate | intros [?|?]; discriminate].
      * split; auto.
    + split; auto.
  - intros base_url status_code Hreq Hget Hne.
    rewrite web_server_outcome, Hreq, Hget. cbn [negb].
    apply Z.eqb_neq in Hne. now rewrite Hne.
  - intros p Hin Hp. rewrite local_files_outcome.
    rewrite (forallb_missing _ _ p Hin (path_exists_None w p Hp)). reflexivity.
  - intros Hp. rewrite metadata_run. unfold all_checks.
    rewrite (load_missing w _ Hp). reflexivity.
  - intros p Hin Hp. rewrite geojson_run. cbn [outcome].
    rewrite (forallb_missing _ _ p Hin); [reflexivity|].
    unfold geo_valid, geojson_structure. now rewrite (load_missing w p Hp).
  - intros p Hin Hp. rewrite sample_tiles_outcome.
    rewrite (forallb_missing _ _ p Hin (path_exists_None w p Hp)). reflexivity.
  - intros Hp. rewrite count_tiles_outcome.
    rewrite (path_exists_None w _ Hp). reflexivity.
  - intros test_name Hin. unfold tests in Hin. cbn [map In fst snd] in Hin.
    assert (Hno : forall c : check,
               In c [test_local_files; test_metadata_structure;
                     test_geojson_files; test_sample_tiles; count_tiles] ->
               recorded (c w) <> RNone).
    { intros c Hc. unfold recorded.
      destruct (Hlocal c Hc) as [-> | ->]; discriminate. }
    destruct Hin as [Heq|[Heq|[Heq|[Heq|[Heq|[Heq|[]]]]]]];
      inversion Heq as [[Hname Hres]]; try reflexivity;
      exfalso; (eapply Hno; [|exact Hres]); cbn [In]; tauto.
Qed.

(** C7: a GeoJSON file of the fixed list whose text is not valid JSON gets
    its error line, the check still prints one line for each file of the
    list, in order, each by the content of its own file, and the result of
    the check is False. *)
Theorem invalid_geojson_does_not_abort (w : World) (p c : string) :
  In p geojson_files ->
  fs w !! p = Some (File c) ->
  json_loads c = None ->
  printed (test_geojson_files w) = GeoHeader :: map (geo_line w) geojson_files
  /\ geo_line w p = GeoError (basename p) JSONDecodeError
  /\ In (GeoError (basename p) JSONDecodeError) (printed (test_geojson_files w))
  /\ outcome (test_geojson_files w) = Ok RFalse.
Proof.
  intros Hin Hp Hc.
  assert (Hs : geojson_structure w p = Raise JSONDecodeError).
  { unfold geojson_structure, load_file. rewrite Hp, Hc. reflexivity. }
  assert (Hl : geo_line w p = GeoError (basename p) JSONDecodeError).
  { unfold geo_line. now rewrite Hs. }
  rewrite geojson_run. cbn [printed outcome].
  split; [reflexivity|]. split; [exact Hl|]. split.
  - right. rewrite <- Hl. now apply in_map.
  - rewrite (forallb_missing _ _ p Hin); [reflexivity|].
    unfold geo_valid. now rewrite Hs.
Qed.

End Tristate.

(** ** The metadata check *)

Section Metadata.
Context `{PyLib}.

Lemma basic_checks_dict (md : list (string * json)) :
  basic_checks (JDict md) =
  (minzoom ← py_int (get_default md "minzoom" (JInt 0));
   maxzoom ← py_int (get_default md "maxzoom" (JInt 0));
   Ok [ (dict_has md "name", HasNameField);
        (eq_str (get md "format") "pbf", FormatIsPbf);
        (minzoom =? 4, MinZoomIs4 (get md "minzoom"));
        (maxzoom =? 10, MaxZoomIs10 (get md "maxzoom")) ]).
Proof.
  unfold basic_checks. cbn [py_in attr_get attr_get_default mbind res_mbind res_bind].
  destruct (py_int (get_default md "minzoom" (JInt 0))) as [z1|e]; [|reflexivity].
  destruct (py_int (get_default md "maxzoom" (JInt 0))) as [z2|e]; reflexivity.
Qed.

Lemma basic_checks_not_dict (metadata : json) :
  (forall md, metadata <> JDict md) -> exists e, basic_checks metadata = Raise e.
Proof.
  intros Hnd. destruct metadata; unfold basic_checks;
    cbn [py_in attr_get mbind res_mbind res_bind]; eauto.
  now destruct (Hnd kvs).
Qed.

Lemma embedded_dict (md : list (string * json)) :
  embedded_vector_layers (JDict md) =
  Ok match dict_get md "json" with
     | None => JNull
     | Some v =>
         match loads v with
         | Ok (JDict jd) => get_default jd "vector_layers" (JList [])
         | _ => JNull
         end
     end.
Proof.
  unfold embedded_vector_layers, dict_has.
  cbn [py_in subscript mbind res_mbind res_bind].
  unfold dict_has.
  destruct (dict_get md "json") as [v|]; [|reflexivity].
  cbn [of_option mbind res_mbind res_bind].
  destruct (loads v) as [[]|e]; reflexivity.
Qed.

Lemma all_checks_dict (w : World) (md : list (string * json)) :
  metadata_is w md ->
  all_checks w =
  (basic ← basic_checks (JDict md);
   vector_layers ← embedded_vector_layers (JDict md);
   layers ← layer_checks vector_layers;
   Ok (basic ++ layers)).
Proof.
  intros (c & Hc & Hmd). unfold all_checks, load_file.
  rewrite Hc, Hmd. reflexivity.
Qed.

(** With nothing to look at, both layer checks are False and nothing is
    raised. *)
Lemma layer_checks_falsy (vector_layers : json) :
  vector_layers = JNull \/ vector_layers = JList [] ->
  layer_checks vector_layers
  = Ok [ (false, HasVectorLayers); (false, CorrectLayerId (JStr "None")) ].
Proof. intros [-> | ->]; reflexivity. Qed.

Lemma layer_checks_first (first : list (string * json)) (rest : list json) :
  layer_checks (JList (JDict first :: rest))
  = Ok [ (true, HasVectorLayers);
         (eq_str (get first "id") layer_id, CorrectLayerId (get first "id")) ].
Proof. reflexivity. Qed.

(** The layer checks pass only on a list whose first element is a dict with
    the expected id. *)
Lemma layer_checks_pass (vector_layers : json) (layers : list (bool * desc)) :
  layer_checks vector_layers = Ok layers ->
  forallb fst layers = true ->
  exists first rest,
    vector_layers = JList (JDict first :: rest)
    /\ dict_get first "id" = Some (JStr layer_id).
Proof.
  intros Hl Hall.
  destruct vector_layers as [|b|z|f|s|l|kvs]; try discriminate Hl.
  - inversion Hl; subst. discriminate Hall.
  - destruct s as [|ch s]; [inversion Hl; subst; discriminate Hall|].
    discriminate Hl.
  - destruct l as [|x rest]; [inversion Hl; subst; discriminate Hall|].
    destruct x as [| | | | | |first]; try discriminate Hl.
    rewrite layer_checks_first in Hl. inversion Hl; subst.
    cbn [forallb fst andb] in Hall. rewrite andb_true_r in Hall.
    exists first, rest. split; [reflexivity|].
    unfold get, eq_str in Hall.
    destruct (dict_get first "id") as [[]|]; try discriminate Hall.
    apply String.eqb_eq in Hall. now subst.
  - destruct kvs as [|kv kvs]; [inversion Hl; subst; discriminate Hall|].
    discriminate Hl.
Qed.

(** The layer checks never raise an IndexError. *)
Lemma layer_checks_no_IndexError (vector_layers : json) :
  layer_checks vector_layers <> Raise IndexError.
Proof.
  destruct vector_layers as [|b|z|f|s|l|kvs]; try discriminate.
  - destruct s; discriminate.
  - destruct l as [|x rest]; [discriminate|].
    destruct x; discriminate.
  - destruct kvs; discriminate.
Qed.

End Metadata.

Section MetadataContract.
Context `{PyLib}.

Lemma layer_checks_shape (vector_layers : json) (layers : list (bool * desc)) :
  layer_checks vector_layers = Ok layers ->
  exists b1 b2 got,
    layers = [ (b1, HasVectorLayers); (b2, CorrectLayerId got) ].
Proof.
  unfold layer_checks. intros Hl.
  destruct (match vector_layers with
            | JNull => Ok false
            | _ => n ← py_len vector_layers; Ok (0 <? n)%nat
            end) as [b1|e]; [|discriminate Hl].
  cbn [mbind res_mbind res_bind] in Hl.
  destruct (if truthy vector_layers
            then first ← item0 vector_layers;
                 id ← attr_get first "id"; Ok (eq_str id layer_id)
            else Ok false) as [b2|e]; [|discriminate Hl].
  cbn [mbind res_mbind res_bind] in Hl.
  destruct (if truthy vector_layers
            then first ← item0 vector_layers; attr_get first "id"
            else Ok (JStr "None")) as [got|e]; [|discriminate Hl].
  cbn [mbind res_mbind res_bind mret res_ret] in Hl.
  inversion Hl. eauto.
Qed.

Lemma layer_expected_vector_layers (md : list (string * json)) :
  layer_expected md ->
  exists first rest,
    embedded_vector_layers (JDict md) = Ok (JList (JDict first :: rest))
    /\ dict_get first "id" = Some (JStr layer_id).
Proof.
  intros (s & jd & first & rest & Hjson & Hloads & Hvl & Hid).
  exists first, rest. split; [|exact Hid].
  rewrite embedded_dict, Hjson. cbn [loads]. rewrite Hloads. cbn [of_option].
  unfold get_default. now rewrite Hvl.
Qed.

(** The run of the check on a document whose fields other than minzoom are
    the expected ones. *)
Lemma metadata_run_expected (w : World) (md : list (string * json)) (z : Z) :
  metadata_is w md ->
  py_int (get_default md "minzoom" (JInt 0)) = Ok z ->
  dict_has md "name" = true ->
  dict_get md "format" = Some (JStr "pbf") ->
  py_int (get_default md "maxzoom" (JInt 0)) = Ok 10 ->
  layer_expected md ->
  test_metadata_structure w =
  Run [ MetadataHeader;
        SubCheckOk HasNameField;
        SubCheckOk FormatIsPbf;
        line_of (z =? 4, MinZoomIs4 (get md "minzoom"));
        SubCheckOk (MaxZoomIs10 (get md "maxzoom"));
        SubCheckOk HasVectorLayers;
        SubCheckOk (CorrectLayerId (JStr layer_id)) ]
      (Ok (of_bool (z =? 4))).
Proof.
  intros Hmd Hmin Hname Hformat Hmax Hlayer.
  destruct (layer_expected_vector_layers md Hlayer) as (first & rest & Hvl & Hid).
  rewrite metadata_run, (all_checks_dict w md Hmd), basic_checks_dict.
  rewrite Hmin, Hmax, Hvl. cbn [mbind res_mbind res_bind].
  rewrite layer_checks_first.
  assert (Hf : get md "format" = JStr "pbf") by (unfold get; now rewrite Hformat).
  assert (Hi : get first "id" = JStr layer_id) by (unfold get; now rewrite Hid).
  rewrite Hf, Hi, Hname.
  cbn [eq_str]. rewrite !String.eqb_refl.
  cbn [app map line_of fst snd forallb andb].
  destruct (z =? 4); reflexivity.
Qed.

(** C5 (amended): a metadata file whose minzoom value converts under [int()]
    to an integer other than 4 (any JSON integer other than 4 does), all other
    fields as expected, fails only the min-zoom line: the five sibling
    sub-checks are evaluated and reported as passed, and the check returns
    False. *)
Theorem minzoom_fails_only_its_line
    (w : World) (md : list (string * json)) (v : json) (z : Z) :
  metadata_is w md ->
  dict_get md "minzoom" = Some v ->
  py_int v = Ok z ->
  z <> 4 ->
  dict_has md "name" = true ->
  dict_get md "format" = Some (JStr "pbf") ->
  py_int (get_default md "maxzoom" (JInt 0)) = Ok 10 ->
  layer_expected md ->
  test_metadata_structure w =
  Run [ MetadataHeader;
        SubCheckOk HasNameField;
        SubCheckOk FormatIsPbf;
        SubCheckFail (MinZoomIs4 v);
        SubCheckOk (MaxZoomIs10 (get md "maxzoom"));
        SubCheckOk HasVectorLayers;
        SubCheckOk (CorrectLayerId (JStr layer_id)) ]
      (Ok RFalse).
Proof.
  intros Hmd Hv Hz Hne Hname Hformat Hmax Hlayer.
  assert (Hmin : py_int (get_default md "minzoom" (JInt 0)) = Ok z).
  { unfold get_default. now rewrite Hv. }
  rewrite (metadata_run_expected w md z Hmd Hmin Hname Hformat Hmax Hlayer).
  apply Z.eqb_neq in Hne. rewrite Hne.
  unfold line_of, get. rewrite Hv. reflexivity.
Qed.

(** C10 (amended): when the embedded [json] field is absent, does not
    parse, or parses to an object whose [vector_layers] is missing or the
    empty list, the variable [vector_layers] is falsy, both layer sub-checks
    evaluate to False and nothing is raised; the layer checks raise no
    IndexError on any value.  The check then reports all six sub-check lines,
    the four basic ones followed by the two failed layer lines, whenever
    [int()] converts the minzoom and maxzoom values (an absent key counts as
    0); when a basic check raises (as [int()] does on null) the check prints
    only its error line. *)
Theorem layer_checks_without_layers (w : World) (md : list (string * json)) :
  no_vector_layers md ->
  (exists vector_layers,
      embedded_vector_layers (JDict md) = Ok vector_layers
      /\ truthy vector_layers = false
      /\ layer_checks vector_layers
         = Ok [ (false, HasVectorLayers);
                (false, CorrectLayerId (JStr "None")) ])
  /\ (forall vector_layers, layer_checks vector_layers <> Raise IndexError)
  /\ (metadata_is w md ->
      (forall z1 z2,
          py_int (get_default md "minzoom" (JInt 0)) = Ok z1 ->
          py_int (get_default md "maxzoom" (JInt 0)) = Ok z2 ->
          test_metadata_structure w
          = Run [ MetadataHeader;
                  line_of (dict_has md "name", HasNameField);
                  line_of (eq_str (get md "format") "pbf", FormatIsPbf);
                  line_of (z1 =? 4, MinZoomIs4 (get md "minzoom"));
                  line_of (z2 =? 10, MaxZoomIs10 (get md "maxzoom"));
                  SubCheckFail HasVectorLayers;
                  SubCheckFail (CorrectLayerId (JStr "None")) ]
                (Ok RFalse))
      /\ (forall e,
            basic_checks (JDict md) = Raise e ->
            test_metadata_structure w
            = Run [MetadataHeader; MetadataError e] (Ok RFalse))).
Proof.
  intros Hno.
  assert (Hvl : exists vector_layers,
             embedded_vector_layers (JDict md) = Ok vector_layers
             /\ (vector_layers = JNull \/ vector_layers = JList [])).
  { rewrite embedded_dict.
    destruct Hno as [Habsent|[(v & e & Hv & Hraise)|(v & jd & Hv & Hok & Hlist)]].
    - rewrite Habsent. eauto.
    - rewrite Hv, Hraise. eauto.
    - rewrite Hv, Hok. unfold get_default.
      destruct Hlist as [-> | ->]; cbn [default]; eauto. }
  destruct Hvl as (vector_layers & Hemb & Hfalsy).
  split; [|split].
  - exists vector_layers. split; [exact Hemb|]. split.
    + destruct Hfalsy as [-> | ->]; reflexivity.
    + now apply layer_checks_falsy.
  - apply layer_checks_no_IndexError.
  - intros Hmd. split.
    + intros z1 z2 Hz1 Hz2.
      rewrite metadata_run, (all_checks_dict w md Hmd), Hemb.
      rewrite basic_checks_dict, Hz1, Hz2. cbn [mbind res_mbind res_bind].
      rewrite (layer_checks_falsy _ Hfalsy). cbn [mbind res_mbind res_bind].
      cbn [app map forallb fst]. rewrite !andb_false_r. reflexivity.
    + intros e Hbasic.
      rewrite metadata_run, (all_checks_dict w md Hmd), Hbasic. reflexivity.
Qed.

End MetadataContract.

Section ZoomContract.
Context `{PyLib}.

Lemma of_bool_true (b : bool) : Ok (of_bool b) = Ok RTrue -> b = true.
Proof. now destruct b. Qed.

Lemma eq_str_get (kvs : list (string * json)) (k s : string) :
  eq_str (get kvs k) s = true -> dict_get kvs k = Some (JStr s).
Proof.
  unfold get, eq_str. destruct (dict_get kvs k) as [[]|]; try discriminate.
  intros Heq. apply String.eqb_eq in Heq. now subst.
Qed.

(** A passing run determines the document. *)
Lemma metadata_pass_expected (w : World) :
  outcome (test_metadata_structure w) = Ok RTrue ->
  exists md, metadata_is w md /\ metadata_expected md.
Proof.
  rewrite metadata_run.
  destruct (all_checks w) as [checks|e] eqn:Hall; [|discriminate].
  cbn [outcome]. intros Hpass. apply of_bool_true in Hpass.
  unfold all_checks, load_file in Hall.
  destruct (fs w !! metadata_path) as [[c|sz]|] eqn:Hfile; try discriminate Hall.
  destruct (json_loads c) as [metadata|] eqn:Hload; [|discriminate Hall].
  cbn [of_option mbind res_mbind res_bind] in Hall.
  destruct metadata as [| | | | | |md];
    try (match type of Hall with
         | context [basic_checks ?m] =>
             let He := fresh "He" in
             assert (He : exists e, basic_checks m = Raise e)
               by (apply basic_checks_not_dict; intros; discriminate);
             destruct He as [e He]; rewrite He in Hall; discriminate Hall
         end).
  exists md. split; [exists c; auto|].
  rewrite basic_checks_dict, embedded_dict in Hall.
  destruct (py_int (get_default md "minzoom" (JInt 0))) as [z1|e] eqn:Hz1;
    [|discriminate Hall].
  destruct (py_int (get_default md "maxzoom" (JInt 0))) as [z2|e] eqn:Hz2;
    [|discriminate Hall].
  cbn [mbind res_mbind res_bind] in Hall.
  match type of Hall with
  | context [layer_checks ?vl] =>
      remember vl as vector_layers eqn:Hvl;
      destruct (layer_checks vector_layers) as [layers|e] eqn:Hlayers;
      [|discriminate Hall]
  end.
  cbn [mbind res_mbind res_bind] in Hall. inversion Hall; subst checks; clear Hall.
  cbn [app forallb fst] in Hpass.
  apply andb_prop in Hpass as [Hname Hpass].
  apply andb_prop in Hpass as [Hformat Hpass].
  apply andb_prop in Hpass as [Hmin Hpass].
  apply andb_prop in Hpass as [Hmax Hlay].
  apply Z.eqb_eq in Hmin, Hmax. subst z1 z2.
  destruct (layer_checks_pass _ _ Hlayers Hlay) as (first & rest & Hlist & Hid).
  split; [exact Hname|]. split; [now apply eq_str_get|]. split; [now split|].
  rewrite Hlist in Hvl.
  destruct (dict_get md "json") as [v|] eqn:Hjson; [|discriminate Hvl].
  destruct v as [| | | |s| |]; try discriminate Hvl.
  cbn [loads] in Hvl.
  destruct (json_loads s) as [[| | | | | |jd]|] eqn:Hs; try discriminate Hvl.
  cbn [of_option] in Hvl. unfold get_default in Hvl.
  destruct (dict_get jd "vector_layers") as [vl|] eqn:Hjd; [|discriminate Hvl].
  cbn in Hvl. rewrite <- Hvl in Hjd.
  exists s, jd, first, rest. auto.
Qed.

(** C9 (amended): the check returns True exactly for a metadata file that
    holds a JSON object with a name key, format "pbf", zoom values that
    [int()] converts to 4 and 10, and an embedded descriptor whose first
    vector layer has the expected id.  When the check reports its sub-check
    lines, the two zoom lines are the passed ones exactly when [int()] of the
    minzoom value is 4 and of the maxzoom value is 10: the numbers 4 and 10,
    and any other value [int()] converts to them. *)
Theorem metadata_check_contract (w : World) :
  (outcome (test_metadata_structure w) = Ok RTrue
   <-> exists md, metadata_is w md /\ metadata_expected md)
  /\ (forall md checks,
        metadata_is w md ->
        all_checks w = Ok checks ->
        (In (SubCheckOk (MinZoomIs4 (get md "minzoom")))
            (printed (test_metadata_structure w))
         /\ In (SubCheckOk (MaxZoomIs10 (get md "maxzoom")))
               (printed (test_metadata_structure w)))
        <-> zooms_expected md).
Proof.
  split.
  - split; [apply metadata_pass_expected|].
    intros (md & Hmd & Hname & Hformat & [Hmin Hmax] & Hlayer).
    now rewrite (metadata_run_expected w md 4 Hmd Hmin Hname Hformat Hmax Hlayer).
  - intros md checks Hmd Hall.
    rewrite metadata_run, Hall. cbn [printed].
    rewrite (all_checks_dict w md Hmd), basic_checks_dict in Hall.
    unfold zooms_expected.
    destruct (py_int (get_default md "minzoom" (JInt 0))) as [z1|e];
      [|discriminate Hall].
    destruct (py_int (get_default md "maxzoom" (JInt 0))) as [z2|e];
      [|discriminate Hall].
    cbn [mbind res_mbind res_bind] in Hall.
    destruct (embedded_vector_layers (JDict md)) as [vector_layers|e];
      [|discriminate Hall].
    cbn [mbind res_mbind res_bind] in Hall.
    destruct (layer_checks vector_layers) as [layers|e] eqn:Hlayers;
      [|discriminate Hall].
    destruct (layer_checks_shape _ _ Hlayers) as (b1 & b2 & got & ->).
    cbn [mbind res_mbind res_bind] in Hall. inversion Hall; subst checks.
    cbn [app map In]. unfold line_of. cbn [fst snd].
    split.
    + intros [Hmin Hmax].
      assert (H1 : (z1 =? 4) = true).
      { destruct (z1 =? 4); [reflexivity|].
        destruct (dict_has md "name"), (eq_str (get md "format") "pbf"),
          (z2 =? 10), b1, b2;
          repeat (destruct Hmin as [Hmin|Hmin]; [discriminate Hmin|]);
          destruct Hmin. }
      assert (H2 : (z2 =? 10) = true).
      { destruct (z2 =? 10); [reflexivity|].
        destruct (dict_has md "name"), (eq_str (get md "format") "pbf"),
          (z1 =? 4), b1, b2;
          repeat (destruct Hmax as [Hmax|Hmax]; [discriminate Hmax|]);
          destruct Hmax. }
      apply Z.eqb_eq in H1, H2. now subst.
    + intros [Hmin Hmax].
      inversion Hmin; inversion Hmax; subst z1 z2. cbn [Z.eqb Pos.eqb].
      split; tauto.
Qed.

End ZoomContract.

(** ** Removing a required file *)

Section Removal.
Context `{PyLib}.

Lemma load_remove_ne (w : World) (p q : string) :
  p <> q -> load_file (remove p w) q = load_file w q.
Proof.
  intros Hne. unfold load_file, remove. cbn [fs].
  now rewrite lookup_delete_ne.
Qed.

Lemma path_exists_remove_ne (w : World) (p q : string) :
  p <> q -> path_exists (remove p w) q = path_exists w q.
Proof.
  intros Hne. unfold path_exists, remove. cbn [fs].
  now rewrite lookup_delete_ne.
Qed.

Lemma path_exists_remove (w : World) (p : string) :
  path_exists (remove p w) p = false.
Proof.
  unfold path_exists, remove. cbn [fs]. now rewrite lookup_delete_eq.
Qed.

Lemma filter_Permutation_bool {A} (f : A -> bool) (l l' : list A) :
  Permutation l l' -> Permutation (List.filter f l) (List.filter f l').
Proof.
  induction 1 as [|x l l' _ IH|x y l|l l' l'' _ IH1 _ IH2]; cbn [List.filter].
  - constructor.
  - destruct (f x); [now constructor|exact IH].
  - destruct (f x), (f y); try reflexivity. constructor.
  - now transitivity (List.filter f l').
Qed.

(** Removing a path that is no tile leaves the number of tiles found. *)
Lemma rglob_remove_length (w : World) (p dir : string) :
  String.prefix (dir +:+ "/") p && ends_with ".pbf" (basename p) = false ->
  length (rglob_pbf (remove p w) dir) = length (rglob_pbf w dir).
Proof.
  intros Hp. unfold rglob_pbf, remove. cbn [fs].
  destruct (fs w !! p) as [x|] eqn:Hx.
  - apply Permutation_length.
    pose proof (map_to_list_delete (fs w) p x Hx) as Hperm.
    apply (fmap_Permutation fst) in Hperm. cbn [fmap list_fmap fst] in Hperm.
    apply (filter_Permutation_bool
             (fun p => String.prefix (dir +:+ "/") p
                       && ends_with ".pbf" (basename p))) in Hperm.
    cbn [List.filter] in Hperm. rewrite Hp in Hperm. exact Hperm.
  - now rewrite delete_id.
Qed.

Lemma geojson_structure_remove_ne (w : World) (p q : string) :
  p <> q -> geojson_structure (remove p w) q = geojson_structure w q.
Proof.
  intros Hne. unfold geojson_structure. now rewrite load_remove_ne.
Qed.

Lemma count_passed_first_failed (test_name : string)
    (results : list (string * result)) :
  (count_passed ((test_name, RFalse) :: results) <= length results)%nat.
Proof.
  unfold count_passed. cbn [List.filter snd]. apply filter_length_le.
Qed.

Lemma exit_code_not_all (passed : nat) :
  (passed <= 5)%nat ->
  exit_code_of_rate passed 6 = 1 \/ exit_code_of_rate passed 6 = 2.
Proof.
  intros Hle. unfold exit_code_of_rate.
  destruct (Nat.eqb_spec (100 * passed) (100 * 6)) as [Heq|_]; [lia|].
  destruct (80 * 6 <=? 100 * passed)%nat; auto.
Qed.

(** C4 (amended): removing any one required file makes the local-files
    check fail, and with it the check that reads the removed file: the
    metadata check for metadata.json, the GeoJSON check for each of the three
    GeoJSON files.  Every other check runs as before (the tile count keeps its
    result), and the exit code is 1 or 2. *)
Theorem removing_a_required_file (w : World) (p : string) :
  In p required_files ->
  outcome (test_local_files (remove p w)) = Ok RFalse
  /\ (p = metadata_path ->
      outcome (test_metadata_structure (remove p w)) = Ok RFalse)
  /\ (p <> metadata_path ->
      test_metadata_structure (remove p w) = test_metadata_structure w)
  /\ (In p geojson_files ->
      outcome (test_geojson_files (remove p w)) = Ok RFalse)
  /\ (~ In p geojson_files ->
      test_geojson_files (remove p w) = test_geojson_files w)
  /\ test_sample_tiles (remove p w) = test_sample_tiles w
  /\ outcome (count_tiles (remove p w)) = outcome (count_tiles w)
  /\ (forall base_url,
        test_web_server (remove p w) base_url = test_web_server w base_url)
  /\ (outcome (main (remove p w)) = Ok 1 \/ outcome (main (remove p w)) = Ok 2).
Proof.
  intros Hin.
  assert (Hlocal : outcome (test_local_files (remove p w)) = Ok RFalse).
  { rewrite local_files_outcome.
    now rewrite (forallb_missing _ _ p Hin (path_exists_remove w p)). }
  split; [exact Hlocal|].
  split; [|split; [|split; [|split; [|split; [|split; [|split]]]]]].
  - intros ->. rewrite metadata_run. unfold all_checks.
    rewrite load_missing; [reflexivity|].
    unfold remove. cbn [fs]. apply lookup_delete_eq.
  - intros Hne. rewrite !metadata_run. unfold all_checks.
    now rewrite load_remove_ne.
  - intros Hgeo. rewrite geojson_run. cbn [outcome].
    rewrite (forallb_missing _ _ p Hgeo); [reflexivity|].
    unfold geo_valid, geojson_structure.
    rewrite load_missing; [reflexivity|].
    unfold remove. cbn [fs]. apply lookup_delete_eq.
  - intros Hgeo. rewrite !geojson_run.
    unfold geo_line, geo_valid, geojson_files in *. cbn [map forallb].
    cbn [In] in Hgeo.
    rewrite !geojson_structure_remove_ne by (intros ->; tauto).
    reflexivity.
  - unfold test_sample_tiles, sample_tiles, remove. cbn [for_fold fs].
    cbn [required_files In] in Hin.
    destruct Hin as [<-|[<-|[<-|[<-|[<-|[]]]]]];
      rewrite !lookup_delete_ne by discriminate; reflexivity.
  - rewrite !count_tiles_outcome.
    cbn [required_files In] in Hin.
    destruct Hin as [<-|[<-|[<-|[<-|[<-|[]]]]]];
      (rewrite path_exists_remove_ne by discriminate);
      (rewrite rglob_remove_length by (vm_compute; reflexivity));
      reflexivity.
  - intros base_url. reflexivity.
  - rewrite main_outcome_rate.
    match goal with
    | |- Ok (exit_code_of_rate ?n 6) = _ \/ _ =>
        assert (Hle : (n <= 5)%nat)
    end.
    { unfold tests. cbn [map fst snd].
      unfold recorded at 1. rewrite Hlocal.
      etransitivity; [apply count_passed_first_failed|].
      cbn [length]. lia. }
    destruct (exit_code_not_all _ Hle) as [-> | ->]; auto.
Qed.

End Removal.

(** ** The end-to-end scenario *)

Section EndToEnd.
Context `{PyLib}.

Lemma path_exists_Some (w : World) (p : string) :
  is_Some (fs w !! p) -> path_exists w p = true.
Proof. intros [n Hn]. unfold path_exists. now rewrite Hn. Qed.

Lemma forallb_all {A} (f : A -> bool) (l : list A) :
  (forall x, In x l -> f x = true) -> forallb f l = true.
Proof. intros Hall. now apply forallb_forall. Qed.

(** A sample tile that exists is among the tiles the count finds. *)
Lemma rglob_finds_sample (w : World) (p : string) :
  In p sample_tiles -> is_Some (fs w !! p) ->
  (0 <? length (rglob_pbf w tiles_dir))%nat = true.
Proof.
  intros Hin [n Hn].
  assert (Hfound : In p (rglob_pbf w tiles_dir)).
  { unfold rglob_pbf. apply filter_In. split.
    - apply list_elem_of_In, list_elem_of_fmap.
      exists (p, n). split; [reflexivity|].
      now apply elem_of_map_to_list.
    - cbn [sample_tiles In] in Hin.
      destruct Hin as [<-|[<-|[<-|[<-|[]]]]]; vm_compute; reflexivity. }
  destruct (rglob_pbf w tiles_dir); [destruct Hfound|reflexivity].
Qed.

Lemma geo_valid_collection (w : World) (p c : string)
    (d : list (string * json)) :
  fs w !! p = Some (File c) ->
  json_loads c = Some (JDict d) ->
  dict_get d "type" = Some (JStr "FeatureCollection") ->
  geo_valid w p = true.
Proof.
  intros Hp Hc Hd. unfold geo_valid, geojson_structure, load_file.
  rewrite Hp, Hc.
  cbn [of_option mbind res_mbind res_bind py_in subscript].
  unfold dict_has. rewrite Hd. cbn [of_option res_bind eq_str].
  reflexivity.
Qed.

(** C2 (amended): when the five required files are present, the metadata
    file is an object with a name, format "pbf", minzoom 4, maxzoom 10 and an
    embedded descriptor whose first vector layer has the expected id, the
    three GeoJSON files are feature collections, the four sample tiles and the
    directory that holds them exist, and the web server answers 200, then
    every check passes, [main] prints that all tests passed and returns 0. *)
Theorem end_to_end_all_pass (w : World) (md : list (string * json)) :
  (forall p, In p required_files -> is_Some (fs w !! p)) ->
  metadata_is w md ->
  dict_has md "name" = true ->
  dict_get md "format" = Some (JStr "pbf") ->
  dict_get md "minzoom" = Some (JInt 4) ->
  dict_get md "maxzoom" = Some (JInt 10) ->
  layer_expected md ->
  (forall p, In p geojson_files ->
     exists c d, fs w !! p = Some (File c)
                 /\ json_loads c = Some (JDict d)
                 /\ dict_get d "type" = Some (JStr "FeatureCollection")) ->
  (forall p, In p sample_tiles -> is_Some (fs w !! p)) ->
  is_Some (fs w !! tiles_dir) ->
  HAS_REQUESTS w = true ->
  http_get w "http://localhost:8000" = Response 200 ->
  outcome (run_tests tests w)
    = Ok [ ("Local Files", RTrue); ("Metadata Structure", RTrue);
           ("GeoJSON Files", RTrue); ("Sample Tiles", RTrue);
           ("Tile Count", RTrue); ("Web Server", RTrue) ]
  /\ In AllTestsPassed (printed (main w))
  /\ outcome (main w) = Ok 0.
Proof.
  intros Hfiles Hmd Hname Hformat Hmin Hmax Hlayer Hgeo Htiles Hdir Hreq Hget.
  assert (H1 : outcome (test_local_files w) = Ok RTrue).
  { rewrite local_files_outcome, forallb_all; [reflexivity|].
    intros p Hp. apply path_exists_Some, Hfiles, Hp. }
  assert (H2 : outcome (test_metadata_structure w) = Ok RTrue).
  { rewrite (metadata_run_expected w md 4 Hmd); try assumption.
    - reflexivity.
    - unfold get_default. now rewrite Hmin.
    - unfold get_default. now rewrite Hmax. }
  assert (H3 : outcome (test_geojson_files w) = Ok RTrue).
  { rewrite geojson_run. cbn [outcome]. rewrite forallb_all; [reflexivity|].
    intros p Hp. destruct (Hgeo p Hp) as (c & d & Hc & Hd & Ht).
    eapply geo_valid_collection; eassumption. }
  assert (H4 : outcome (test_sample_tiles w) = Ok RTrue).
  { rewrite sample_tiles_outcome, forallb_all; [reflexivity|].
    intros p Hp. apply path_exists_Some, Htiles, Hp. }
  assert (H5 : outcome (count_tiles w) = Ok RTrue).
  { rewrite count_tiles_outcome, (path_exists_Some w _ Hdir).
    rewrite (rglob_finds_sample w "docs/tiles_catchments/4/10/6.pbf").
    - reflexivity.
    - cbn [sample_tiles In]. tauto.
    - apply Htiles. cbn [sample_tiles In]. tauto. }
  assert (H6 : outcome (test_web_server w "http://localhost:8000") = Ok RTrue).
  { rewrite web_server_outcome, Hreq, Hget. reflexivity. }
  assert (Hmain : outcome (main w) = Ok 0).
  { rewrite main_outcome_rate. unfold tests. cbn [map fst snd].
    unfold recorded. rewrite H1, H2, H3, H4, H5, H6. reflexivity. }
  split; [|split].
  - rewrite run_tests_run. cbn [outcome]. unfold tests. cbn [map fst snd].
    unfold recorded. now rewrite H1, H2, H3, H4, H5, H6.
  - now apply main_last_line.
  - exact Hmain.
Qed.

End EndToEnd.

(** ** A skipped web-server check *)

Section Skip.
Context `{PyLib}.

(** C1 (amended): without the requests library, or with the server
    unreachable, the web-server check is a skip (None), not a fail, and is
    recorded as such.  The skip leaves the denominator of the pass rate at all
    six checks and is not counted as passed: the exit code is then never 0,
    and a run in which the five other checks pass has 5 of 6 (83.3%) and
    returns the warning exit code 1. *)
Theorem skip_stays_in_the_total (w : World) :
  HAS_REQUESTS w = false
  \/ http_get w "http://localhost:8000" = Unreachable ->
  let results := map (fun t => (t.1, recorded (t.2 w))) tests in
  outcome (test_web_server w "http://localhost:8000") = Ok RNone
  /\ outcome (run_tests tests w) = Ok results
  /\ In ("Web Server", RNone) results
  /\ (exists passed, outcome (tally results) = Ok (passed, 6%nat)
                     /\ (passed <= 5)%nat)
  /\ (outcome (main w) = Ok 1 \/ outcome (main w) = Ok 2)
  /\ (outcome (test_local_files w) = Ok RTrue ->
      outcome (test_metadata_structure w) = Ok RTrue ->
      outcome (test_geojson_files w) = Ok RTrue ->
      outcome (test_sample_tiles w) = Ok RTrue ->
      outcome (count_tiles w) = Ok RTrue ->
      outcome (tally results) = Ok (5%nat, 6%nat)
      /\ outcome (main w) = Ok 1).
Proof.
  intros Hskip results.
  assert (Hweb : outcome (test_web_server w "http://localhost:8000") = Ok RNone).
  { rewrite web_server_outcome.
    destruct Hskip as [-> | ->]; [reflexivity|].
    now destruct (HAS_REQUESTS w). }
  assert (Hlast : exists r1 r2 r3 r4 r5,
             results = [ ("Local Files", r1); ("Metadata Structure", r2);
                         ("GeoJSON Files", r3); ("Sample Tiles", r4);
                         ("Tile Count", r5); ("Web Server", RNone) ]).
  { unfold results, tests. cbn [map fst snd].
    unfold recorded at 6. rewrite Hweb. eauto 6. }
  assert (Hle : (count_passed results <= 5)%nat).
  { destruct Hlast as (r1 & r2 & r3 & r4 & r5 & ->).
    unfold count_passed. cbn [List.filter snd].
    destruct r1, r2, r3, r4, r5; cbn [length]; lia. }
  split; [exact Hweb|].
  split; [now rewrite run_tests_run|].
  split; [destruct Hlast as (r1 & r2 & r3 & r4 & r5 & ->); cbn [In]; tauto|].
  split; [exists (count_passed results); split; [apply tally_outcome|exact Hle]|].
  split.
  - rewrite main_outcome_rate. fold results.
    destruct (exit_code_not_all _ Hle) as [-> | ->]; auto.
  - intros H1 H2 H3 H4 H5.
    rewrite tally_outcome, main_outcome_rate. fold results.
    unfold results, tests. cbn [map fst snd].
    unfold recorded. rewrite H1, H2, H3, H4, H5, Hweb.
    split; reflexivity.
Qed.

End Skip.

(** ** Concrete runs *)

Section Concrete.
#[local] Existing Instance ref_pylib.

(** The texts of the concrete sites parse to the documents named after
    them. *)
Lemma site_documents :
  json_loads Site.scenario_metadata = Some (JDict Site.scenario_doc)
  /\ json_loads Site.named_metadata = Some (JDict Site.named_doc)
  /\ json_loads Site.string_zoom_metadata = Some (JDict Site.string_zoom_doc)
  /\ json_loads Site.null_minzoom_metadata = Some (JDict Site.null_minzoom_doc)
  /\ json_loads Site.minzoom5_metadata = Some (JDict Site.minzoom5_doc)
  /\ json_loads Site.no_json_metadata = Some (JDict Site.no_json_doc)
  /\ json_loads Site.descriptor_text = Some (JDict Site.descriptor)
  /\ json_loads "{oops" = None.
Proof. vm_compute. repeat split. Qed.

(** The deployed site passes every check and exits with 0. *)
Lemma deployed_passes :
  outcome (run_tests tests Site.deployed)
    = Ok [ ("Local Files", RTrue); ("Metadata Structure", RTrue);
           ("GeoJSON Files", RTrue); ("Sample Tiles", RTrue);
           ("Tile Count", RTrue); ("Web Server", RTrue) ]
  /\ outcome (main Site.deployed) = Ok 0.
Proof. vm_compute. split; reflexivity. Qed.

(** C1, counterexample: without the requests library, on a site where the
    five other checks pass, the web-server check is skipped (None, not
    False) and the run does not reach 100% and exit code 0: the skipped check
    stays in the total, 5 of 6, with the warning line and exit code 1. *)
Lemma skipped_run_exits_with_warning :
  outcome (test_web_server (Site.unserved Site.named_metadata)
             "http://localhost:8000") = Ok RNone
  /\ outcome (run_tests tests (Site.unserved Site.named_metadata))
     = Ok [ ("Local Files", RTrue); ("Metadata Structure", RTrue);
            ("GeoJSON Files", RTrue); ("Sample Tiles", RTrue);
            ("Tile Count", RTrue); ("Web Server", RNone) ]
  /\ outcome (tally [ ("Local Files", RTrue); ("Metadata Structure", RTrue);
                      ("GeoJSON Files", RTrue); ("Sample Tiles", RTrue);
                      ("Tile Count", RTrue); ("Web Server", RNone) ])
     = Ok (5%nat, 6%nat)
  /\ In MostTestsPassed (printed (main (Site.unserved Site.named_metadata)))
  /\ outcome (main (Site.unserved Site.named_metadata)) = Ok 1.
Proof.
  vm_compute.
  repeat split; try reflexivity.
  repeat (first [left; reflexivity | right]).
Qed.

(** C1, witness: the deployed site without the requests library. *)
Lemma skip_stays_in_the_total_witness :
  outcome (test_web_server (Site.unserved Site.named_metadata)
             "http://localhost:8000") = Ok RNone
  /\ (outcome (main (Site.unserved Site.named_metadata)) = Ok 1
      \/ outcome (main (Site.unserved Site.named_metadata)) = Ok 2).
Proof.
  destruct (skip_stays_in_the_total (Site.unserved Site.named_metadata))
    as (Hweb & _ & _ & _ & Hexit & _).
  - left. reflexivity.
  - split; [exact Hweb|exact Hexit].
Defined.

(** C2, counterexample: the metadata of the scenario has no name, so with
    everything else in place and the server answering 200 the metadata check
    fails on its name line and [main] returns 1. *)
Lemma scenario_metadata_has_no_name :
  fs (Site.served Site.scenario_metadata 200) !! metadata_path
    = Some (File Site.scenario_metadata)
  /\ json_loads Site.scenario_metadata = Some (JDict Site.scenario_doc)
  /\ In (SubCheckFail HasNameField)
        (printed (test_metadata_structure (Site.served Site.scenario_metadata 200)))
  /\ outcome (run_tests tests (Site.served Site.scenario_metadata 200))
     = Ok [ ("Local Files", RTrue); ("Metadata Structure", RFalse);
            ("GeoJSON Files", RTrue); ("Sample Tiles", RTrue);
            ("Tile Count", RTrue); ("Web Server", RTrue) ]
  /\ outcome (main (Site.served Site.scenario_metadata 200)) = Ok 1.
Proof.
  vm_compute.
  repeat split; try reflexivity.
  right. left. reflexivity.
Qed.

(** C2, witness: the deployed site, whose metadata is the scenario's with a
    name. *)
Lemma end_to_end_all_pass_witness :
  outcome (run_tests tests Site.deployed)
    = Ok [ ("Local Files", RTrue); ("Metadata Structure", RTrue);
           ("GeoJSON Files", RTrue); ("Sample Tiles", RTrue);
           ("Tile Count", RTrue); ("Web Server", RTrue) ]
  /\ In AllTestsPassed (printed (main Site.deployed))
  /\ outcome (main Site.deployed) = Ok 0.
Proof.
  apply (end_to_end_all_pass Site.deployed Site.named_doc).
  - intros p Hp. cbn [required_files In] in Hp.
    destruct Hp as [<-|[<-|[<-|[<-|[<-|[]]]]]]; eexists; reflexivity.
  - exists Site.named_metadata. split; vm_compute; reflexivity.
  - reflexivity.
  - reflexivity.
  - reflexivity.
  - reflexivity.
  - exists Site.descriptor_text, Site.descriptor,
      [("id", JStr "aqueduct_baseline_annual_tr_web")], [].
    repeat split; vm_compute; reflexivity.
  - intros p Hp. cbn [geojson_files In] in Hp.
    exists Site.geojson_text,
      [("type", JStr "FeatureCollection"); ("features", JList [])].
    destruct Hp as [<-|[<-|[<-|[]]]]; repeat split; vm_compute; reflexivity.
  - intros p Hp. cbn [sample_tiles In] in Hp.
    destruct Hp as [<-|[<-|[<-|[<-|[]]]]]; eexists; reflexivity.
  - eexists; reflexivity.
  - reflexivity.
  - reflexivity.
Defined.

(** C4, counterexample: on the deployed site, where every check passes,
    removing metadata.json alone makes two checks fail, the local-files check
    and the metadata check. *)
Lemma removing_metadata_fails_two_checks :
  In metadata_path required_files
  /\ outcome (run_tests tests Site.deployed)
     = Ok [ ("Local Files", RTrue); ("Metadata Structure", RTrue);
            ("GeoJSON Files", RTrue); ("Sample Tiles", RTrue);
            ("Tile Count", RTrue); ("Web Server", RTrue) ]
  /\ outcome (run_tests tests (remove metadata_path Site.deployed))
     = Ok [ ("Local Files", RFalse); ("Metadata Structure", RFalse);
            ("GeoJSON Files", RTrue); ("Sample Tiles", RTrue);
            ("Tile Count", RTrue); ("Web Server", RTrue) ]
  /\ outcome (main (remove metadata_path Site.deployed)) = Ok 2.
Proof.
  split; [right; left; reflexivity|].
  vm_compute. repeat split.
Qed.

(** C4, witness: metadata.json removed from the deployed site. *)
Lemma removing_a_required_file_witness :
  outcome (test_local_files (remove metadata_path Site.deployed)) = Ok RFalse
  /\ outcome (test_metadata_structure (remove metadata_path Site.deployed))
     = Ok RFalse
  /\ test_sample_tiles (remove metadata_path Site.deployed)
     = test_sample_tiles Site.deployed
  /\ (outcome (main (remove metadata_path Site.deployed)) = Ok 1
      \/ outcome (main (remove metadata_path Site.deployed)) = Ok 2).
Proof.
  destruct (removing_a_required_file Site.deployed metadata_path)
    as (Hlocal & Hmeta & _ & _ & _ & Htiles & _ & _ & Hexit).
  - right. left. reflexivity.
  - split; [exact Hlocal|]. split; [exact (Hmeta eq_refl)|].
    split; [exact Htiles|exact Hexit].
Defined.

(** C5, counterexample: a minzoom of null is other than 4, and the check
    reports no sub-check line at all, only the error of [int(None)]; a
    minzoom of "4" (a string) is other than 4, and its zoom line passes. *)
Lemma minzoom_null_or_string :
  json_loads Site.null_minzoom_metadata = Some (JDict Site.null_minzoom_doc)
  /\ dict_get Site.null_minzoom_doc "minzoom" = Some JNull
  /\ test_metadata_structure (Site.served Site.null_minzoom_metadata 200)
     = Run [MetadataHeader; MetadataError TypeError] (Ok RFalse)
  /\ json_loads Site.string_zoom_metadata = Some (JDict Site.string_zoom_doc)
  /\ dict_get Site.string_zoom_doc "minzoom" = Some (JStr "4")
  /\ In (SubCheckOk (MinZoomIs4 (JStr "4")))
        (printed (test_metadata_structure
                    (Site.served Site.string_zoom_metadata 200))).
Proof.
  vm_compute. repeat split.
  do 3 right. left. reflexivity.
Qed.

(** C5, witness: a minzoom of 5. *)
Lemma minzoom_fails_only_its_line_witness :
  test_metadata_structure (Site.served Site.minzoom5_metadata 200) =
  Run [ MetadataHeader;
        SubCheckOk HasNameField;
        SubCheckOk FormatIsPbf;
        SubCheckFail (MinZoomIs4 (JInt 5));
        SubCheckOk (MaxZoomIs10 (JInt 10));
        SubCheckOk HasVectorLayers;
        SubCheckOk (CorrectLayerId (JStr layer_id)) ]
      (Ok RFalse).
Proof.
  apply (minzoom_fails_only_its_line
           (Site.served Site.minzoom5_metadata 200) Site.minzoom5_doc
           (JInt 5) 5).
  - exists Site.minzoom5_metadata. split; vm_compute; reflexivity.
  - reflexivity.
  - reflexivity.
  - discriminate.
  - reflexivity.
  - reflexivity.
  - reflexivity.
  - exists Site.descriptor_text, Site.descriptor,
      [("id", JStr "aqueduct_baseline_annual_tr_web")], [].
    repeat split; vm_compute; reflexivity.
Defined.

(** C9, counterexample: zoom levels written as the strings "4" and "10" are
    not the literals 4 and 10, and both zoom lines pass, with the whole
    check. *)
Lemma string_zooms_pass :
  json_loads Site.string_zoom_metadata = Some (JDict Site.string_zoom_doc)
  /\ dict_get Site.string_zoom_doc "minzoom" = Some (JStr "4")
  /\ dict_get Site.string_zoom_doc "maxzoom" = Some (JStr "10")
  /\ test_metadata_structure (Site.served Site.string_zoom_metadata 200)
     = Run [ MetadataHeader;
             SubCheckOk HasNameField;
             SubCheckOk FormatIsPbf;
             SubCheckOk (MinZoomIs4 (JStr "4"));
             SubCheckOk (MaxZoomIs10 (JStr "10"));
             SubCheckOk HasVectorLayers;
             SubCheckOk (CorrectLayerId (JStr layer_id)) ]
           (Ok RTrue).
Proof. vm_compute. repeat split. Qed.

(** C9, witness: the contract read from right to left on the deployed
    site. *)
Lemma metadata_check_contract_witness :
  outcome (test_metadata_structure Site.deployed) = Ok RTrue.
Proof.
  apply (proj1 (metadata_check_contract Site.deployed)).
  exists Site.named_doc. split.
  - exists Site.named_metadata. split; vm_compute; reflexivity.
  - split; [reflexivity|]. split; [reflexivity|]. split.
    + split; reflexivity.
    + exists Site.descriptor_text, Site.descriptor,
        [("id", JStr "aqueduct_baseline_annual_tr_web")], [].
      repeat split; vm_compute; reflexivity.
Defined.

(** C10, counterexample: a metadata file without the [json] key whose
    minzoom is null.  The layer checks would fail quietly, but [int(None)]
    raises in the basic checks before they are reached, and the check reports
    no sub-check line, only its error line. *)
Lemma no_json_null_minzoom_reports_no_line :
  json_loads Edge.no_json_null_minzoom_metadata
    = Some (JDict Edge.no_json_null_minzoom_doc)
  /\ dict_get Edge.no_json_null_minzoom_doc "json" = None
  /\ dict_get Edge.no_json_null_minzoom_doc "minzoom" = Some JNull
  /\ test_metadata_structure
       (Site.served Edge.no_json_null_minzoom_metadata 200)
     = Run [MetadataHeader; MetadataError TypeError] (Ok RFalse).
Proof. vm_compute. repeat split. Qed.

(** C10, witness: a metadata file without the [json] key. *)
Lemma layer_checks_without_layers_witness :
  test_metadata_structure (Site.served Site.no_json_metadata 200) =
  Run [ MetadataHeader;
        SubCheckOk HasNameField;
        SubCheckOk FormatIsPbf;
        SubCheckOk (MinZoomIs4 (JInt 4));
        SubCheckOk (MaxZoomIs10 (JInt 10));
        SubCheckFail HasVectorLayers;
        SubCheckFail (CorrectLayerId (JStr "None")) ]
      (Ok RFalse).
Proof.
  destruct (layer_checks_without_layers
              (Site.served Site.no_json_metadata 200) Site.no_json_doc)
    as (_ & _ & Hrun).
  - left. reflexivity.
  - destruct Hrun as [Hlines _].
    + exists Site.no_json_metadata. split; vm_compute; reflexivity.
    + apply (Hlines 4 10); reflexivity.
Defined.

(** C7, witness: the rivers file, second of the list, is not JSON. *)
Lemma invalid_geojson_does_not_abort_witness :
  printed (test_geojson_files Site.broken_rivers)
    = [ GeoHeader;
        GeoValid "turkey_provinces_web.geojson";
        GeoError "hydrorivers_tr_web_final.geojson" JSONDecodeError;
        GeoValid "hydrolakes_tr_web.geojson" ]
  /\ outcome (test_geojson_files Site.broken_rivers) = Ok RFalse.
Proof.
  destruct (invalid_geojson_does_not_abort Site.broken_rivers
              "docs/data_web/hydrorivers_tr_web_final.geojson" "{oops")
    as (Hprinted & _ & _ & Hout).
  - right. left. reflexivity.
  - reflexivity.
  - vm_compute. reflexivity.
  - split; [|exact Hout]. rewrite Hprinted. vm_compute. reflexivity.
Defined.

(** C6, witness: a check that raises, registered before the local-files
    check. *)
Lemma run_tests_isolates_failures_witness :
  outcome (run_tests [ ("Broken", Site.broken_check);
                       ("Local Files", test_local_files) ] Site.deployed)
    = Ok [ ("Broken", RFalse); ("Local Files", RTrue) ]
  /\ printed (run_tests [ ("Broken", Site.broken_check);
                          ("Local Files", test_local_files) ] Site.deployed)
    = [ LocalHeader; TestFailedWithError "Broken" ValueError;
        LocalHeader; AllFilesExist ].
Proof.
  destruct (run_tests_isolates_failures
              [ ("Broken", Site.broken_check);
                ("Local Files", test_local_files) ] Site.deployed)
    as (Hout & Hprinted & _).
  rewrite Hout, Hprinted. vm_compute. split; reflexivity.
Defined.

(** C8, witness: a skip without the requests library, a fail on a 404, a
    fail on a missing index.html. *)
Lemma checks_are_tristate_witness :
  outcome (test_web_server (Site.unserved Site.named_metadata)
             "http://localhost:8000") = Ok RNone
  /\ outcome (test_web_server (Site.served Site.named_metadata 404)
                "http://localhost:8000") = Ok RFalse
  /\ outcome (test_local_files (remove "docs/index.html" Site.deployed))
     = Ok RFalse.
Proof.
  split; [|split].
  - apply (checks_are_tristate (Site.unserved Site.named_metadata)).
    left. reflexivity.
  - apply (checks_are_tristate (Site.served Site.named_metadata 404))
      with (status_code := 404).
    + reflexivity.
    + reflexivity.
    + discriminate.
  - apply (checks_are_tristate (remove "docs/index.html" Site.deployed))
      with (p := "docs/index.html").
    + left. reflexivity.
    + reflexivity.
Defined.

End Concrete.

(** ** Further properties of the checks *)

Section LocalChecks.
Context `{PyLib}.

Lemma collect_missing (f : string -> bool) (l acc : list string) :
  fold_left (fun missing_files file_path =>
               if f file_path then missing_files ++ [file_path]
               else missing_files) l acc
  = acc ++ List.filter f l.
Proof.
  revert acc. induction l as [|x l IH]; intros acc; cbn [fold_left List.filter].
  - now rewrite app_nil_r.
  - rewrite IH. destruct (f x); [|reflexivity].
    now rewrite <- app_assoc.
Qed.

(** X1: the local-files check passes exactly when no required file is
    missing; when it fails it lists the missing files, each once, in the
    order of the required list, and nothing else. *)
Theorem local_files_lists_missing (w : World) :
  test_local_files w
  = match missing_files w with
    | [] => Run [LocalHeader; AllFilesExist] (Ok RTrue)
    | _ :: _ =>
        Run (LocalHeader :: MissingFiles :: map MissingFile (missing_files w))
            (Ok RFalse)
    end
  /\ (forall p, In p (missing_files w)
                <-> In p required_files /\ fs w !! p = None)
  /\ NoDup (missing_files w).
Proof.
  split; [|split].
  - unfold test_local_files. rewrite collect_missing. cbn [app].
    fold (missing_files w).
    destruct (missing_files w) as [|p ps]; [reflexivity|].
    rewrite !bind_print. cbn [printed outcome].
    erewrite bind_Ok by (rewrite for_each_print; reflexivity).
    rewrite for_each_print. cbn [printed outcome mret M_ret].
    now rewrite app_nil_r.
  - intros p. unfold missing_files. rewrite filter_In.
    unfold path_exists. destruct (fs w !! p); cbn [negb]; intuition congruence.
  - unfold missing_files. apply NoDup_ListNoDup, List.NoDup_filter.
    unfold required_files.
    repeat (constructor; [cbn [In]; intuition discriminate|]).
    constructor.
Qed.

Lemma sample_tiles_from (w : World) (tiles : list string) (existing : nat) :
  for_fold tiles existing
    (fun tile_path existing_tiles =>
       match fs w !! tile_path with
       | Some n =>
           print (TileOk tile_path (getsize n));; mret (S existing_tiles)
       | None =>
           print (TileMissing tile_path);; mret existing_tiles
       end)
  = Run (map (tile_line w) tiles)
        (Ok (existing + length (List.filter (path_exists w) tiles))%nat).
Proof.
  revert existing.
  induction tiles as [|p tiles IH]; intros existing.
  - cbn. now rewrite Nat.add_0_r.
  - cbn [for_fold map List.filter]. unfold tile_line at 1, path_exists at 1.
    destruct (fs w !! p) as [n|].
    + rewrite bind_print. erewrite bind_Ok by reflexivity. rewrite IH.
      cbn. now rewrite Nat.add_succ_r.
    + rewrite bind_print. erewrite bind_Ok by reflexivity. rewrite IH.
      reflexivity.
Qed.

(** X2: the sample-tile check prints one line for each of the four tiles, in
    order, with the size of whatever is at the path, and passes exactly when
    something exists at all four paths: neither the size nor the kind of node
    is looked at, an empty file passes. *)
Theorem sample_tiles_existence_only (w : World) :
  test_sample_tiles w
  = Run (TilesHeader :: map (tile_line w) sample_tiles)
        (Ok (of_bool (forallb (path_exists w) sample_tiles)))
  /\ (outcome (test_sample_tiles w) = Ok RTrue
      <-> forall p, In p sample_tiles -> is_Some (fs w !! p))
  /\ (forall p, fs w !! p = Some (File EmptyString) ->
                tile_line w p = TileOk p 0).
Proof.
  assert (Hrun : test_sample_tiles w
                 = Run (TilesHeader :: map (tile_line w) sample_tiles)
                       (Ok (of_bool (forallb (path_exists w) sample_tiles)))).
  { unfold test_sample_tiles. rewrite bind_print.
    rewrite sample_tiles_from. cbn [printed outcome Nat.add].
    erewrite bind_Ok by reflexivity.
    cbn [printed outcome mret M_ret]. rewrite app_nil_r.
    now rewrite filter_all. }
  split; [exact Hrun|]. split.
  - rewrite Hrun. cbn [outcome]. split.
    + intros Hpass. apply of_bool_true in Hpass.
      rewrite forallb_forall in Hpass.
      intros p Hp. specialize (Hpass p Hp). unfold path_exists in Hpass.
      destruct (fs w !! p); [eauto|discriminate].
    + intros Hall. rewrite forallb_all; [reflexivity|].
      intros p Hp. now apply path_exists_Some, Hall.
  - intros p Hp. unfold tile_line. now rewrite Hp.
Qed.

(** A file the GeoJSON check accepts: a regular file whose text is a JSON
    object with [type] "FeatureCollection" or "Feature". *)
Lemma geo_valid_iff (w : World) (p : string) :
  geo_valid w p = true
  <-> exists c d,
        fs w !! p = Some (File c)
        /\ json_loads c = Some (JDict d)
        /\ (dict_get d "type" = Some (JStr "FeatureCollection")
            \/ dict_get d "type" = Some (JStr "Feature")).
Proof.
  unfold geo_valid, geojson_structure, load_file. split.
  - destruct (fs w !! p) as [[c|sz]|]; try discriminate.
    destruct (json_loads c) as [data|] eqn:Hload; [|discriminate].
    cbn [of_option mbind res_mbind res_bind].
    destruct data as [| | | |s|l|d]; try discriminate.
    + cbn [py_in mbind res_mbind res_bind]. destruct (contains "type" s); discriminate.
    + cbn [py_in mbind res_mbind res_bind].
      destruct (existsb _ l); discriminate.
    + cbn [py_in subscript mbind res_mbind res_bind]. unfold dict_has.
      destruct (dict_get d "type") as [t|] eqn:Hget; [|discriminate].
      cbn [of_option mbind res_mbind res_bind]. intros Ht.
      exists c, d. split; [reflexivity|]. split; [exact Hload|].
      destruct (eq_str t "FeatureCollection") eqn:H1.
      * left. destruct t; try discriminate H1.
        cbn in H1. apply String.eqb_eq in H1. now subst.
      * destruct (eq_str t "Feature") eqn:H2; [|discriminate Ht].
        right. destruct t; try discriminate H2.
        cbn in H2. apply String.eqb_eq in H2. now subst.
  - intros (c & d & Hc & Hd & Ht). rewrite Hc, Hd.
    cbn [of_option mbind res_mbind res_bind py_in subscript]. unfold dict_has.
    destruct Ht as [-> | ->]; reflexivity.
Qed.

(** X3: the GeoJSON check passes exactly when each of its three files is a
    regular file holding a JSON object whose [type] is the string
    "FeatureCollection" or "Feature".  A top-level array, string or number is
    never accepted, whatever it contains. *)
Theorem geojson_passes_iff (w : World) :
  (outcome (test_geojson_files w) = Ok RTrue
   <-> forall p, In p geojson_files ->
         exists c d,
           fs w !! p = Some (File c)
           /\ json_loads c = Some (JDict d)
           /\ (dict_get d "type" = Some (JStr "FeatureCollection")
               \/ dict_get d "type" = Some (JStr "Feature")))
  /\ (forall p c data,
        fs w !! p = Some (File c) -> json_loads c = Some data ->
        (forall d, data <> JDict d) ->
        geo_line w p <> GeoValid (basename p)).
Proof.
  split.
  - rewrite geojson_run. cbn [outcome]. split.
    + intros Hpass. apply of_bool_true in Hpass.
      rewrite forallb_forall in Hpass.
      intros p Hp. now apply geo_valid_iff, Hpass.
    + intros Hall. rewrite forallb_all; [reflexivity|].
      intros p Hp. now apply geo_valid_iff, Hall.
  - intros p c data Hc Hdata Hnd Hline.
    assert (Hv : geo_valid w p = true).
    { unfold geo_valid. unfold geo_line in Hline.
      destruct (geojson_structure w p) as [[|]|e]; [reflexivity|discriminate..]. }
    apply geo_valid_iff in Hv as (c' & d & Hc' & Hd & _).
    rewrite Hc in Hc'. inversion Hc'; subst c'.
    rewrite Hdata in Hd. inversion Hd. now apply (Hnd d).
Qed.

End LocalChecks.

(** ** Further properties of the report *)

Section Report.
Context `{PyLib}.

Lemma tally_run_from (results : list (string * result)) (passed total : nat) :
  for_fold results (passed, total)
    (fun '(test_name, result) '(passed, total) =>
       let total := S total in
       match result with
       | RTrue => print (SummaryPassed test_name);; mret (S passed, total)
       | RNone => print (SummarySkipped test_name);; mret (passed, total)
       | RFalse => print (SummaryFailed test_name);; mret (passed, total)
       end)
  = Run (map summary_line results)
        (Ok ((passed + count_passed results)%nat, (total + length results)%nat)).
Proof.
  revert passed total.
  induction results as [|[test_name r] rest IH]; intros passed total.
  - cbn. unfold count_passed. cbn. now rewrite !Nat.add_0_r.
  - cbn [for_fold map]. unfold summary_line at 1. cbn [fst snd].
    unfold count_passed in *.
    destruct r; rewrite bind_print; erewrite bind_Ok by reflexivity;
      rewrite IH; cbn [printed outcome List.filter snd length app];
      f_equal; f_equal; f_equal; lia.
Qed.

(** X4: the exit code of [main] is decided by how many of the six checks
    returned True, whichever they are: 0 when all six did, 1 when exactly
    five did, 2 when four or fewer did.  One check that fails or is skipped
    gives the warning code, two or more give the failure code. *)
Theorem exit_code_by_count (w : World) :
  let passed := count_passed (map (fun t => (t.1, recorded (t.2 w))) tests) in
  (outcome (main w) = Ok 0 <-> passed = 6%nat)
  /\ (outcome (main w) = Ok 1 <-> passed = 5%nat)
  /\ (outcome (main w) = Ok 2 <-> (passed <= 4)%nat).
Proof.
  intros passed. rewrite main_outcome_rate. fold passed.
  assert (Hle : (passed <= 6)%nat).
  { unfold passed.
    etransitivity; [apply count_passed_le|]. reflexivity. }
  do 7 (destruct passed as [|passed];
        [vm_compute; repeat split; intros; first [reflexivity | lia | discriminate]|]).
  lia.
Qed.

(** X5: the report of [main] has a fixed shape: the banner, the output of
    the six checks in their registered order, then the summary with one line
    for each check in the same order, the line "passed/6" with the number
    of checks that returned True, and one closing verdict. *)
Theorem main_report_shape (w : World) :
  let results := map (fun t => (t.1, recorded (t.2 w))) tests in
  exists success_rate verdict,
    printed (main w)
    = [Banner; Rule]
      ++ concat (map (fun t => trace t.1 (t.2 w)) tests)
      ++ [BlankLineRule; SummaryHeader]
      ++ map summary_line results
      ++ [Overall (count_passed results) 6 success_rate; verdict]
    /\ map (fun l => match l with
                     | SummaryPassed n | SummarySkipped n | SummaryFailed n => n
                     | _ => EmptyString
                     end) (map summary_line results)
       = [ "Local Files"; "Metadata Structure"; "GeoJSON Files";
           "Sample Tiles"; "Tile Count"; "Web Server" ]
    /\ (verdict = AllTestsPassed /\ outcome (main w) = Ok 0
        \/ verdict = MostTestsPassed /\ outcome (main w) = Ok 1
        \/ verdict = ManyTestsFailed /\ outcome (main w) = Ok 2).
Proof.
  intros results.
  assert (Hdiv : exists q, truediv (count_passed results) 6 = Ok q).
  { unfold truediv. cbn [Nat.eqb]. eauto. }
  destruct Hdiv as [q Hq].
  assert (Hsummary :
            summary results
            = Run ([BlankLineRule; SummaryHeader] ++ map summary_line results
                   ++ [Overall (count_passed results) 6 (q * 100)%float;
                       match float_exit_code (q * 100)%float with
                       | 0 => AllTestsPassed
                       | 1 => MostTestsPassed
                       | _ => ManyTestsFailed
                       end])
                  (Ok (float_exit_code (q * 100)%float))).
  { unfold summary, tally. rewrite !bind_print.
    rewrite tally_run_from. cbn [Nat.add].
    erewrite bind_Ok by reflexivity. cbn [printed outcome].
    change (length results) with 6%nat. rewrite Hq.
    cbn [mbind res_mbind res_bind]. rewrite bind_lift_Ok, bind_print.
    unfold float_exit_code.
    destruct (PrimFloat.eqb (q * 100) 100); [reflexivity|].
    destruct (PrimFloat.leb 80 (q * 100)); reflexivity. }
  exists (q * 100)%float,
    (match float_exit_code (q * 100)%float with
     | 0 => AllTestsPassed
     | 1 => MostTestsPassed
     | _ => ManyTestsFailed
     end).
  split; [|split].
  - unfold main, main_with. rewrite !bind_print. rewrite run_tests_run.
    erewrite bind_Ok by reflexivity. cbn [printed outcome].
    fold results. rewrite Hsummary. cbn [printed app]. reflexivity.
  - unfold results, tests. cbn [map fst snd]. unfold summary_line. cbn [fst snd].
    repeat match goal with
           | |- context [recorded ?m] => destruct (recorded m)
           end; reflexivity.
  - unfold main. rewrite main_with_outcome. fold results.
    rewrite Hsummary. cbn [outcome]. unfold float_exit_code.
    destruct (PrimFloat.eqb (q * 100) 100); [auto|].
    destruct (PrimFloat.leb 80 (q * 100)); auto.
Qed.

End Report.

(** ** Further properties of the metadata check *)

Section MetadataEdges.
Context `{PyLib}.

(** X6: a metadata file that is valid JSON but not an object (an array, a
    string, a number, a boolean, null) sends the check to its error handler:
    one error line, no sub-check line, result False.  An array or a string
    fails at [.get] (AttributeError), the others at [in] (TypeError). *)
Theorem metadata_not_an_object (w : World) (c : string) (metadata : json) :
  fs w !! metadata_path = Some (File c) ->
  json_loads c = Some metadata ->
  (forall md, metadata <> JDict md) ->
  exists e,
    test_metadata_structure w
    = Run [MetadataHeader; MetadataError e] (Ok RFalse)
    /\ e = match metadata with
           | JList _ | JStr _ => AttributeError
           | _ => TypeError
           end.
Proof.
  intros Hc Hload Hnd.
  rewrite metadata_run. unfold all_checks, load_file. rewrite Hc, Hload.
  cbn [of_option mbind res_mbind res_bind].
  destruct metadata as [| | | |s|l|md]; unfold basic_checks;
    cbn [py_in attr_get mbind res_mbind res_bind]; eauto.
  now destruct (Hnd md).
Qed.

(** X7: an absent minzoom key is read as 0: with the other fields as
    expected the min-zoom line fails showing "got None", the five sibling
    lines pass and no error is raised (a null value, by contrast, raises). *)
Theorem absent_minzoom_reads_as_zero (w : World) (md : list (string * json)) :
  metadata_is w md ->
  dict_get md "minzoom" = None ->
  dict_has md "name" = true ->
  dict_get md "format" = Some (JStr "pbf") ->
  py_int (get_default md "maxzoom" (JInt 0)) = Ok 10 ->
  layer_expected md ->
  test_metadata_structure w =
  Run [ MetadataHeader;
        SubCheckOk HasNameField;
        SubCheckOk FormatIsPbf;
        SubCheckFail (MinZoomIs4 JNull);
        SubCheckOk (MaxZoomIs10 (get md "maxzoom"));
        SubCheckOk HasVectorLayers;
        SubCheckOk (CorrectLayerId (JStr layer_id)) ]
      (Ok RFalse).
Proof.
  intros Hmd Hmin Hname Hformat Hmax Hlayer.
  rewrite (metadata_run_expected w md 0 Hmd); try assumption.
  - unfold line_of, get. rewrite Hmin. reflexivity.
  - unfold get_default. rewrite Hmin. reflexivity.
Qed.

(** X8: the layer checks raise exactly on these values of [vector_layers]:
    a number or a boolean ([len] raises TypeError), a non-empty string or a
    non-empty list whose first element is not an object ([.get] raises
    AttributeError), a non-empty object ([[0]] raises KeyError).  The whole
    check then prints its error line instead of the sub-check lines, even
    when the four basic checks pass. *)
Theorem layer_checks_raise_exactly (vector_layers : json) (e : exn) :
  (layer_checks vector_layers = Raise e
   <-> layer_checks_raise vector_layers e)
  /\ (forall w md basic,
        metadata_is w md ->
        basic_checks (JDict md) = Ok basic ->
        embedded_vector_layers (JDict md) = Ok vector_layers ->
        layer_checks_raise vector_layers e ->
        test_metadata_structure w
        = Run [MetadataHeader; MetadataError e] (Ok RFalse)).
Proof.
  assert (Hiff : layer_checks vector_layers = Raise e
                 <-> layer_checks_raise vector_layers e).
  { destruct vector_layers as [|b|z|f|s|l|kvs]; cbn [layer_checks_raise].
    - split; [discriminate|tauto].
    - split; [intros Hr; now inversion Hr|intros ->; reflexivity].
    - split; [intros Hr; now inversion Hr|intros ->; reflexivity].
    - split; [intros Hr; now inversion Hr|intros ->; reflexivity].
    - destruct s as [|ch s].
      + split; [discriminate|intros [Hne _]; now destruct Hne].
      + split; [intros Hr; inversion Hr; split; [discriminate|reflexivity]
               |intros [_ ->]; reflexivity].
    - destruct l as [|x rest]; [split; [discriminate|tauto]|].
      destruct x as [| | | | | |d];
        try (change (layer_checks (JList (JDict d :: rest)))
               with (Ok [ (true, HasVectorLayers);
                          (eq_str (get d "id") layer_id,
                           CorrectLayerId (get d "id")) ]);
             split; [discriminate|tauto]);
        (change (@Raise (list (bool * desc)) AttributeError = Raise e
                 <-> e = AttributeError);
         split; [intros Hr; now inversion Hr|intros ->; reflexivity]).
    - destruct kvs as [|kv kvs]; [split; [discriminate|tauto]|].
      split; [intros Hr; now inversion Hr|intros ->; reflexivity]. }
  split; [exact Hiff|].
  intros w md basic Hmd Hbasic Hvl Hraise.
  rewrite metadata_run, (all_checks_dict w md Hmd), Hbasic, Hvl.
  cbn [mbind res_mbind res_bind].
  apply Hiff in Hraise. rewrite Hraise. reflexivity.
Qed.

(** X9: reading the embedded descriptor never raises: for every metadata
    object the variable [vector_layers] gets a value, and whatever goes wrong
    on the way (a [json] value that is not a string, a string that is not
    JSON, JSON that is not an object) leaves it None.  It is something else
    only when the [json] string parses to an object, and then it is that
    object's [vector_layers], or the empty list when the key is absent. *)
Theorem embedded_descriptor_never_raises (md : list (string * json)) :
  exists vector_layers,
    embedded_vector_layers (JDict md) = Ok vector_layers
    /\ (vector_layers <> JNull ->
        exists s jd,
          dict_get md "json" = Some (JStr s)
          /\ json_loads s = Some (JDict jd)
          /\ vector_layers = get_default jd "vector_layers" (JList []))
    /\ (forall v, dict_get md "json" = Some v ->
                  (forall s, v <> JStr s) -> vector_layers = JNull)
    /\ (forall s data, dict_get md "json" = Some (JStr s) ->
                       json_loads s = Some data ->
                       (forall jd, data <> JDict jd) -> vector_layers = JNull).
Proof.
  rewrite embedded_dict. eexists. split; [reflexivity|].
  split; [|split].
  - intros Hne.
    destruct (dict_get md "json") as [v|] eqn:Hjson; [|now destruct Hne].
    destruct v as [| | | |s| |]; try (now destruct Hne).
    cbn [loads] in *.
    destruct (json_loads s) as [[| | | | | |jd]|] eqn:Hs; try (now destruct Hne).
    exists s, jd. split; [reflexivity|]. split; [exact Hs|reflexivity].
  - intros v Hv Hns. rewrite Hv.
    destruct v; try reflexivity. now destruct (Hns s).
  - intros s data Hs Hdata Hnd. rewrite Hs. cbn [loads]. rewrite Hdata.
    cbn [of_option]. destruct data; try reflexivity. now destruct (Hnd kvs).
Qed.

End MetadataEdges.

(** ** Further properties of the tile count *)

Section TileCount.
Context `{PyLib}.

Lemma append_step (cur : string) (c : ascii) (z : string) :
  (cur +:+ String c EmptyString) +:+ z = cur +:+ String c z.
Proof.
  induction cur as [|a cur IH]; [reflexivity|].
  change (String a ((cur +:+ String c EmptyString) +:+ z)
          = String a (cur +:+ String c z)).
  now f_equal.
Qed.

Lemma append_empty (s : string) : s +:+ EmptyString = s.
Proof.
  induction s as [|a s IH]; [reflexivity|].
  change (String a (s +:+ EmptyString) = String a s). now f_equal.
Qed.

(** A component followed by a slash is one part. *)
Lemma parts_from_component (cur z rest : string) :
  no_slash z = true ->
  parts_from cur (z +:+ String "/"%char rest)
  = (cur +:+ z) :: parts_from EmptyString rest.
Proof.
  revert cur. induction z as [|c z IH]; intros cur Hz.
  - cbn. now rewrite append_empty.
  - cbn [no_slash] in Hz. apply andb_prop in Hz as [Hc Hz].
    change (String c z +:+ String "/"%char rest)
      with (String c (z +:+ String "/"%char rest)).
    cbn [parts_from].
    destruct (Ascii.eqb c "/"%char); [discriminate Hc|].
    rewrite IH by exact Hz. f_equal. apply append_step.
Qed.

(** A last component is one part. *)
Lemma parts_from_last (cur z : string) :
  no_slash z = true -> parts_from cur z = [cur +:+ z].
Proof.
  revert cur. induction z as [|c z IH]; intros cur Hz.
  - cbn. now rewrite append_empty.
  - cbn [no_slash] in Hz. apply andb_prop in Hz as [Hc Hz].
    cbn [parts_from].
    destruct (Ascii.eqb c "/"%char); [discriminate Hc|].
    rewrite IH by exact Hz. f_equal. apply append_step.
Qed.

Lemma parts_from_nonempty (cur s : string) :
  exists x l, parts_from cur s = x :: l.
Proof.
  revert cur. induction s as [|c s IH]; intros cur; cbn [parts_from].
  - eauto.
  - destruct (Ascii.eqb c "/"%char); [eauto|apply IH].
Qed.

(** The zoom of a path below the tile directory is the first part after
    it. *)
Lemma zoom_of_below (rest : string) :
  zoom_of ("docs/tiles_catchments/" +:+ rest)
  = head (parts_from EmptyString rest).
Proof.
  unfold zoom_of, parts.
  change (parts_from EmptyString ("docs/tiles_catchments/" +:+ rest))
    with ("docs" :: "tiles_catchments" :: parts_from EmptyString rest).
  destruct (parts_from EmptyString rest); reflexivity.
Qed.

(** X11: the zoom level of a tile is the name of the first directory below
    [docs/tiles_catchments] on its path, whatever follows; a file that lies
    directly in the tile directory is counted under its own file name. *)
Theorem zoom_is_first_directory (z rest : string) :
  component z ->
  zoom_of ("docs/tiles_catchments/" +:+ z +:+ "/" +:+ rest) = Some z
  /\ zoom_of ("docs/tiles_catchments/" +:+ z) = Some z.
Proof.
  intros (_ & _ & Hz). rewrite !zoom_of_below. split.
  - change (z +:+ "/" +:+ rest) with (z +:+ String "/"%char rest).
    now rewrite parts_from_component.
  - now rewrite parts_from_last.
Qed.

Lemma prefix_app (a p : string) :
  String.prefix a p = true -> exists rest, p = a +:+ rest.
Proof.
  revert p. induction a as [|c a IH]; intros p Hp.
  - exists p. reflexivity.
  - destruct p as [|c' p]; [discriminate Hp|].
    cbn [String.prefix] in Hp.
    destruct (ascii_dec c c') as [<-|]; [|discriminate Hp].
    destruct (IH p Hp) as [rest ->]. now exists rest.
Qed.

Lemma zoom_of_tile (p : string) :
  String.prefix (tiles_dir +:+ "/") p = true -> is_Some (zoom_of p).
Proof.
  intros Hp. apply prefix_app in Hp as [rest ->].
  change (tiles_dir +:+ "/") with "docs/tiles_catchments/".
  rewrite zoom_of_below.
  destruct (parts_from_nonempty EmptyString rest) as (x & l & ->).
  cbn. eauto.
Qed.

Lemma rglob_pbf_tiles (w : World) (p : string) :
  In p (rglob_pbf w tiles_dir) <-> is_Some (fs w !! p) /\ is_tile p = true.
Proof.
  unfold rglob_pbf, is_tile. rewrite filter_In.
  rewrite <- list_elem_of_In, list_elem_of_fmap. split.
  - intros [([q n] & -> & Hq) Ht]. apply elem_of_map_to_list in Hq.
    cbn [fst] in *. eauto.
  - intros [[n Hn] Ht]. split; [|exact Ht].
    exists (p, n). split; [reflexivity|]. now apply elem_of_map_to_list.
Qed.

(** X10: the tile count passes exactly when the tile directory exists and
    some path below it has a name ending in [.pbf].  Without the directory
    the check prints its not-found line and nothing else; with it, it prints
    the number of such paths. *)
Theorem count_tiles_passes_iff (w : World) :
  (outcome (count_tiles w) = Ok RTrue
   <-> is_Some (fs w !! tiles_dir)
       /\ exists p, is_Some (fs w !! p) /\ is_tile p = true)
  /\ (fs w !! tiles_dir = None ->
      count_tiles w = Run [CountHeader; TilesDirNotFound] (Ok RFalse))
  /\ (is_Some (fs w !! tiles_dir) ->
      In (TotalTiles (length (rglob_pbf w tiles_dir))) (printed (count_tiles w))).
Proof.
  split; [|split].
  - rewrite count_tiles_outcome. unfold path_exists. split.
    + intros Hpass. apply of_bool_true in Hpass.
      apply andb_prop in Hpass as [Hdir Hn].
      split; [destruct (fs w !! tiles_dir); [eauto|discriminate]|].
      destruct (rglob_pbf w tiles_dir) as [|p ps] eqn:Hglob; [discriminate Hn|].
      exists p. apply rglob_pbf_tiles. rewrite Hglob. now left.
    + intros [[n Hdir] (p & Hp & Ht)]. rewrite Hdir. cbn [andb].
      assert (Hin : In p (rglob_pbf w tiles_dir)) by now apply rglob_pbf_tiles.
      destruct (rglob_pbf w tiles_dir); [destruct Hin|reflexivity].
  - intros Hdir. unfold count_tiles, path_exists. rewrite Hdir. reflexivity.
  - intros [n Hdir]. unfold count_tiles, path_exists. rewrite Hdir.
    cbn [negb]. rewrite !bind_print. cbn [printed]. right. left. reflexivity.
Qed.

End TileCount.

Section ZoomCounts.
Context `{PyLib}.

Lemma values_sum_insert (m : gmap string nat) (k : string) :
  sum_list ((map_to_list (<[k := (default 0 (m !! k) + 1)%nat]> m)).*2)
  = S (sum_list ((map_to_list m).*2)).
Proof.
  destruct (m !! k) as [n|] eqn:Hk; cbn [default].
  - rewrite <- insert_delete_eq.
    rewrite (sum_list_with_Permutation_proper id _ _
               (fmap_Permutation snd _ _
                  (map_to_list_insert (delete k m) k (n + 1)%nat
                     (lookup_delete_eq m k)))).
    rewrite <- (sum_list_with_Permutation_proper id _ _
                  (fmap_Permutation snd _ _ (map_to_list_delete m k n Hk))).
    cbn. lia.
  - rewrite (sum_list_with_Permutation_proper id _ _
               (fmap_Permutation snd _ _ (map_to_list_insert m k 1%nat Hk))).
    reflexivity.
Qed.

(** Every file that has a zoom adds one to the counts. *)
Lemma count_by_zoom_from (pbf_files : list string) (m : gmap string nat) :
  (forall p, In p pbf_files -> is_Some (zoom_of p)) ->
  sum_list
    ((map_to_list
        (fold_left
           (fun zoom_counts pbf_file =>
              match zoom_of pbf_file with
              | Some zoom =>
                  <[zoom := (default 0 (zoom_counts !! zoom) + 1)%nat]> zoom_counts
              | None => zoom_counts
              end)
           pbf_files m)).*2)
  = (sum_list ((map_to_list m).*2) + length pbf_files)%nat.
Proof.
  revert m. induction pbf_files as [|p ps IH]; intros m Hall.
  - cbn. lia.
  - cbn [fold_left length].
    destruct (Hall p (or_introl eq_refl)) as [zoom Hz]. rewrite Hz.
    rewrite IH by (intros q Hq; apply Hall; now right).
    rewrite values_sum_insert. lia.
Qed.

Lemma lookups_are_values (m : gmap string nat) (l : list (string * nat)) :
  (forall k v, In (k, v) l -> m !! k = Some v) ->
  map (fun k => default 0%nat (m !! k)) (l.*1) = l.*2.
Proof.
  induction l as [|[k v] l IH]; intros Hl; [reflexivity|].
  cbn [fmap list_fmap map fst snd].
  rewrite (Hl k v (or_introl eq_refl)). cbn [default]. f_equal.
  apply IH. intros k' v' Hin. apply Hl. now right.
Qed.

Lemma zoom_lines_counts (m : gmap string nat) (zooms : list string) :
  zoom_line_counts
    (map (fun zoom => ZoomCount zoom (default 0%nat (m !! zoom))) zooms)
  = map (fun zoom => default 0%nat (m !! zoom)) zooms.
Proof.
  induction zooms as [|z zooms IH]; [reflexivity|].
  cbn [map]. unfold zoom_line_counts in *. cbn [omap list_omap]. now rewrite IH.
Qed.

(** X12: when the tile directory exists, the per-zoom lines of the tile
    count add up to the total it prints: every tile found is counted under
    exactly one zoom level, none is skipped. *)
Theorem zoom_counts_add_up (w : World) :
  is_Some (fs w !! tiles_dir) ->
  In (TotalTiles (length (rglob_pbf w tiles_dir))) (printed (count_tiles w))
  /\ sum_list (zoom_line_counts (printed (count_tiles w)))
     = length (rglob_pbf w tiles_dir).
Proof.
  intros [n Hdir].
  set (zoom_counts := count_by_zoom (rglob_pbf w tiles_dir)).
  assert (Hprinted :
            printed (count_tiles w)
            = [CountHeader; TotalTiles (length (rglob_pbf w tiles_dir)); ByZoomHeader]
              ++ map (fun zoom => ZoomCount zoom (default 0%nat (zoom_counts !! zoom)))
                     (merge_sort String.le ((map_to_list zoom_counts).*1))).
  { unfold count_tiles, path_exists. rewrite Hdir. cbn [negb].
    rewrite !bind_print. cbn [printed].
    erewrite bind_Ok by (rewrite for_each_print; reflexivity).
    rewrite for_each_print. cbn [printed mret M_ret].
    rewrite app_nil_r. reflexivity. }
  rewrite Hprinted. split; [right; left; reflexivity|].
  unfold zoom_line_counts. cbn [app omap list_omap].
  fold (zoom_line_counts
          (map (fun zoom => ZoomCount zoom (default 0%nat (zoom_counts !! zoom)))
               (merge_sort String.le ((map_to_list zoom_counts).*1)))).
  rewrite zoom_lines_counts.
  rewrite (sum_list_with_Permutation_proper id _ _
             (Permutation_map _ (merge_sort_Permutation String.le _))).
  rewrite lookups_are_values.
  - unfold zoom_counts, count_by_zoom. rewrite count_by_zoom_from.
    + rewrite map_to_list_empty. reflexivity.
    + intros p Hp. apply rglob_pbf_tiles in Hp as [_ Ht].
      unfold is_tile in Ht. apply andb_prop in Ht as [Hpre _].
      now apply zoom_of_tile.
  - intros k v Hin. apply list_elem_of_In in Hin.
    now apply elem_of_map_to_list.
Qed.

End ZoomCounts.

(** ** What each check reads *)

Section Frame.
Context `{PyLib}.

(** X13: a directory in the place of a file that a check opens: the
    local-files check counts the path as present, while the check that opens
    it fails with an OS error, the metadata check on its error line and the
    GeoJSON check on the line of that file. *)
Theorem directory_in_place_of_file (w : World) (p : string) (st_size : N) :
  In p (metadata_path :: geojson_files) ->
  fs w !! p = Some (Dir st_size) ->
  ~ In p (missing_files w)
  /\ (p = metadata_path ->
      test_metadata_structure w
      = Run [MetadataHeader; MetadataError OSError] (Ok RFalse))
  /\ (In p geojson_files ->
      geo_line w p = GeoError (basename p) OSError
      /\ outcome (test_geojson_files w) = Ok RFalse).
Proof.
  intros Hin Hdir. split; [|split].
  - unfold missing_files. rewrite filter_In. unfold path_exists.
    rewrite Hdir. cbn [negb]. intros [_ Hf]. discriminate Hf.
  - intros ->. rewrite metadata_run. unfold all_checks, load_file.
    rewrite Hdir. reflexivity.
  - intros Hgeo.
    assert (Hs : geojson_structure w p = Raise OSError).
    { unfold geojson_structure, load_file. rewrite Hdir. reflexivity. }
    split.
    + unfold geo_line. now rewrite Hs.
    + rewrite geojson_run. cbn [outcome].
      rewrite (forallb_missing _ _ p Hgeo); [reflexivity|].
      unfold geo_valid. now rewrite Hs.
Qed.

(** X14: each check reads only what it names.  The local-files and
    sample-tile checks see only which of their paths exist, the metadata
    check only metadata.json, the GeoJSON check only its three files, and the
    web-server check nothing of the file system: two worlds that agree there
    give the same run of the check, lines and result. *)
Theorem checks_read_only_their_paths (w1 w2 : World) :
  ((forall p, In p required_files -> path_exists w1 p = path_exists w2 p) ->
   test_local_files w1 = test_local_files w2)
  /\ (fs w1 !! metadata_path = fs w2 !! metadata_path ->
      test_metadata_structure w1 = test_metadata_structure w2)
  /\ ((forall p, In p geojson_files -> fs w1 !! p = fs w2 !! p) ->
      test_geojson_files w1 = test_geojson_files w2)
  /\ ((forall p, In p sample_tiles -> fs w1 !! p = fs w2 !! p) ->
      test_sample_tiles w1 = test_sample_tiles w2)
  /\ (fs w1 = fs w2 -> count_tiles w1 = count_tiles w2)
  /\ (forall base_url,
        HAS_REQUESTS w1 = HAS_REQUESTS w2 ->
        http_get w1 base_url = http_get w2 base_url ->
        test_web_server w1 base_url = test_web_server w2 base_url).
Proof.
  split; [|split; [|split; [|split; [|split]]]].
  - intros Hsame. unfold test_local_files, required_files in *.
    cbn [fold_left]. rewrite !Hsame by (cbn [In]; tauto). reflexivity.
  - intros Hsame. rewrite !metadata_run. unfold all_checks, load_file.
    now rewrite Hsame.
  - intros Hsame. rewrite !geojson_run.
    unfold geo_line, geo_valid, geojson_structure, load_file, geojson_files in *.
    cbn [map forallb]. rewrite !Hsame by (cbn [In]; tauto). reflexivity.
  - intros Hsame. unfold test_sample_tiles, sample_tiles in *.
    cbn [for_fold]. rewrite !Hsame by (cbn [In]; tauto). reflexivity.
  - intros Hsame. unfold count_tiles, path_exists, rglob_pbf.
    now rewrite Hsame.
  - intros base_url Hreq Hget. unfold test_web_server. now rewrite Hreq, Hget.
Qed.

End Frame.

(** ** Concrete runs of the further properties *)

Section ConcreteEdges.
#[local] Existing Instance ref_pylib.

(** X6, witness: metadata.json holds the array [1, 2]. *)
Lemma metadata_not_an_object_witness :
  exists e,
    test_metadata_structure Edge.array_metadata
    = Run [MetadataHeader; MetadataError e] (Ok RFalse)
    /\ e = AttributeError.
Proof.
  apply (metadata_not_an_object Edge.array_metadata "[1, 2]"
           (JList [JInt 1; JInt 2])).
  - reflexivity.
  - vm_compute. reflexivity.
  - intros md. discriminate.
Defined.

(** X7, witness: the metadata of the deployed site without its minzoom. *)
Lemma absent_minzoom_reads_as_zero_witness :
  test_metadata_structure (Site.served Edge.no_minzoom_metadata 200) =
  Run [ MetadataHeader;
        SubCheckOk HasNameField;
        SubCheckOk FormatIsPbf;
        SubCheckFail (MinZoomIs4 JNull);
        SubCheckOk (MaxZoomIs10 (JInt 10));
        SubCheckOk HasVectorLayers;
        SubCheckOk (CorrectLayerId (JStr layer_id)) ]
      (Ok RFalse).
Proof.
  apply (absent_minzoom_reads_as_zero
           (Site.served Edge.no_minzoom_metadata 200) Edge.no_minzoom_doc).
  - exists Edge.no_minzoom_metadata. split; vm_compute; reflexivity.
  - reflexivity.
  - reflexivity.
  - reflexivity.
  - reflexivity.
  - exists Site.descriptor_text, Site.descriptor,
      [("id", JStr "aqueduct_baseline_annual_tr_web")], [].
    repeat split; vm_compute; reflexivity.
Defined.

(** X11, witness: the first sample tile lies at zoom 4. *)
Lemma zoom_is_first_directory_witness :
  zoom_of "docs/tiles_catchments/4/10/6.pbf" = Some "4"
  /\ zoom_of "docs/tiles_catchments/4" = Some "4".
Proof.
  apply (zoom_is_first_directory "4" "10/6.pbf").
  split; [discriminate|]. split; [discriminate|reflexivity].
Defined.

(** X12, witness: the four tiles of the deployed site, one at each zoom. *)
Lemma zoom_counts_add_up_witness :
  In (TotalTiles 4) (printed (count_tiles Site.deployed))
  /\ sum_list (zoom_line_counts (printed (count_tiles Site.deployed))) = 4%nat.
Proof.
  destruct (zoom_counts_add_up Site.deployed) as [Htotal Hsum].
  - eexists. reflexivity.
  - split.
    + exact Htotal.
    + rewrite Hsum. vm_compute. reflexivity.
Defined.

(** X13, witness: a directory named like the rivers file. *)
Lemma directory_in_place_of_file_witness :
  ~ In "docs/data_web/hydrorivers_tr_web_final.geojson"
       (missing_files Edge.rivers_is_a_directory)
  /\ geo_line Edge.rivers_is_a_directory
       "docs/data_web/hydrorivers_tr_web_final.geojson"
     = GeoError "hydrorivers_tr_web_final.geojson" OSError
  /\ outcome (test_geojson_files Edge.rivers_is_a_directory) = Ok RFalse.
Proof.
  destruct (directory_in_place_of_file Edge.rivers_is_a_directory
              "docs/data_web/hydrorivers_tr_web_final.geojson" 4096)
    as (Hpresent & _ & Hgeo).
  - right. right. left. reflexivity.
  - reflexivity.
  - split; [exact Hpresent|]. apply Hgeo. right. left. reflexivity.
Defined.

End ConcreteEdges.
